(** * Verification of [generate_tax_brackets.py]

    A shallow embedding of the tax bracket generator: the bracket
    normaliser [format_brackets], the two fetchers, the document assembler
    [generate_tax_data], the JSON writer in [main], and the properties the
    specification states about them.

    Python numbers are modelled as they are: an [int] is an unbounded [Z], a
    [float] is an IEEE 754 binary64 value (Rocq's primitive [float]).
    Exceptions are explicit results; printing, the file system and
    [sys.exit] are threaded through a small state monad, in which an
    exception that nothing catches ends the run. The interpreter is a
    current CPython with its defaults, so that an int of more than 4300
    decimal digits cannot be turned into text. The rate provider is a
    parameter: each of its classes either returns an object or raises an
    [Exception]. *)

From Stdlib Require Import QArith Qabs Qpower Lqa.
From Stdlib Require Import ZArith List String Ascii Bool Lia Floats.
From Stdlib Require Import DecimalString.
Import ListNotations.

Local Open Scope string_scope.
Local Open Scope Z_scope.

(** ** Python values *)

Module Py.

(** The two numeric types the rate provider hands out. *)
Inductive num : Type :=
| PyInt (n : Z)
| PyFloat (f : float).

(** A value that either is returned or is an [Exception] carrying the
    text that [str(e)] prints. *)
Inductive result (A : Type) : Type :=
| Returns (a : A)
| Raises (msg : string).
Arguments Returns {A} a.
Arguments Raises {A} msg.

Definition bind {A B} (r : result A) (k : A -> result B) : result B :=
  match r with
  | Returns a => k a
  | Raises msg => Raises msg
  end.

(** [a / b] on two ints (CPython's [long_true_divide]): the quotient
    rounded once, to nearest even; [OverflowError] when the rounded
    quotient leaves the binary64 range. *)
Definition int_true_divide (a b : Z) : result float :=
  match b with
  | 0 => Raises "division by zero"
  | _ =>
    let negative := xorb (a <? 0) (b <? 0) in
    match a with
    | 0 => Returns (SF2Prim (S754_zero negative))
    | _ =>
      let '(q, e, l) :=
        SFdiv_core_binary prec emax (Z.abs a) 0 (Z.abs b) 0 in
      match binary_round_aux prec emax negative q e l with
      | S754_infinity _ =>
        Raises "integer division result too large for a float"
      | r => Returns (SF2Prim r)
      end
    end
  end.

(** [x / 100]: the only division of the script. An int is divided as an
    int; for a float the literal [100] converts exactly to [100.0]. *)
Definition truediv_100 (x : num) : result float :=
  match x with
  | PyInt n => int_true_divide n 100
  | PyFloat f => Returns (f / 100)%float
  end.

(** The exact value [m * 2^e] of a finite float against an int, without
    rounding either side, as Python compares mixed numbers. *)
Definition Z_compare_dyadic (n m e : Z) : comparison :=
  match e with
  | Zneg p => Z.compare (n * 2 ^ Zpos p) m
  | _ => Z.compare n (m * 2 ^ e)
  end.

(** [n ? f] for an int and a float; [None] when [f] is a NaN. *)
Definition Z_compare_float (n : Z) (f : float) : option comparison :=
  match Prim2SF f with
  | S754_nan => None
  | S754_zero _ => Some (Z.compare n 0)
  | S754_infinity s => Some (if s then Gt else Lt)
  | S754_finite s m e =>
    Some (Z_compare_dyadic n (if s then Zneg m else Zpos m) e)
  end.

(** Python's [x == y] on numbers. *)
Definition eq (x y : num) : bool :=
  match x, y with
  | PyInt a, PyInt b => a =? b
  | PyFloat a, PyFloat b => PrimFloat.eqb a b
  | PyInt a, PyFloat b =>
    match Z_compare_float a b with Some Eq => true | _ => false end
  | PyFloat a, PyInt b =>
    match Z_compare_float b a with Some Eq => true | _ => false end
  end.


(** [float('inf')]. *)
Definition inf : num := PyFloat infinity.

(** The decimal text of an int. *)
Definition str_int (n : Z) : string := NilZero.string_of_int (Z.to_int n).

(** [sys.get_int_max_str_digits()], at its default. *)
Definition int_max_str_digits : Z := 4300.

(** The least natural number with more digits than that. *)
Definition int_max_str_bound : Z :=
  Eval vm_compute in 10 ^ int_max_str_digits.

(** The message of the [ValueError] that turning a longer int into text
    raises. *)
Definition max_str_digits_error : string :=
  "Exceeds the limit (4300 digits) for integer string conversion; "
  ++ "use sys.set_int_max_str_digits() to increase the limit".

(** [int.__repr__], which [str(n)], an f-string and [json] all go through:
    an int of more than [int_max_str_digits] digits raises [ValueError]. *)
Definition repr_int (n : Z) : result string :=
  if Z.abs n <? int_max_str_bound then Returns (str_int n)
  else Raises max_str_digits_error.
Arguments repr_int : simpl never.

End Py.

Import Py.

(** ** The bracket normaliser *)

(** What the script stores under ["max"]: the number itself or the string
    ["Infinity"]. *)
Inductive max_value : Type :=
| MaxNum (x : num)
| MaxStr (s : string).

(** The dict literal [{"min": .., "max": .., "rate": ..}]. *)
Record Bracket : Type := mkBracket {
  b_min : num;
  b_max : max_value;
  b_rate : float
}.

(** A rate object of the provider: its [brackets] attribute is a list of
    [(rate_percentage, max_amount)] tuples. *)
Record tax_rate_obj : Type := mkRateObj {
  brackets : list (num * num)
}.

(** [brackets[i][1]]. *)
Definition index_upper (bs : list (num * num)) (i : nat) : result num :=
  match nth_error bs i with
  | Some p => Returns (snd p)
  | None => Raises "list index out of range"
  end.

(** One turn of the [for] loop of [format_brackets]: the dict appended for
    the pair [(rate_pct, max_val)] met at index [i]. *)
Definition format_one (bs : list (num * num)) (i : nat)
    (rate_pct max_val : num) : result Bracket :=
  bind (if Nat.eqb i 0 then Returns (PyInt 0)
        else index_upper bs (i - 1)%nat) (fun min_val =>
  bind (truediv_100 rate_pct) (fun rate_decimal =>
  let max_val_serializable :=
    if Py.eq max_val Py.inf then MaxStr "Infinity" else MaxNum max_val in
  Returns (mkBracket min_val max_val_serializable rate_decimal))).

(** The loop over [enumerate(brackets)]: [rest] is what is left to visit,
    [i] the index of its head, [formatted] the list built so far. *)
Fixpoint format_loop (bs : list (num * num)) (i : nat)
    (rest : list (num * num)) (formatted : list Bracket)
    : result (list Bracket) :=
  match rest with
  | [] => Returns formatted
  | (rate_pct, max_val) :: rest' =>
    bind (format_one bs i rate_pct max_val) (fun b =>
    format_loop bs (S i) rest' (formatted ++ [b]))
  end.

Definition format_brackets (tax_rate_obj : tax_rate_obj)
    : result (list Bracket) :=
  let bs := brackets tax_rate_obj in
  format_loop bs 0 bs [].

(** ** The lookup tables *)

(** A Python dict with string keys, in insertion order. *)
Definition dict (V : Type) : Type := list (string * V).

Fixpoint dict_get {V} (d : dict V) (k : string) : option V :=
  match d with
  | [] => None
  | (k', v) :: d' => if String.eqb k' k then Some v else dict_get d' k
  end.

Definition dict_keys {V} (d : dict V) : list string := map fst d.

(** [k in d]. *)
Definition dict_contains {V} (d : dict V) (k : string) : bool :=
  match dict_get d k with Some _ => true | None => false end.

(** [d[k] = v]: an existing key keeps its place, a new one goes last. *)
Fixpoint dict_set {V} (d : dict V) (k : string) (v : V) : dict V :=
  match d with
  | [] => [(k, v)]
  | (k', v') :: d' =>
    if String.eqb k' k then (k', v) :: d' else (k', v') :: dict_set d' k v
  end.

(** [d[k]], a [KeyError] when [k] is absent. *)
Definition dict_getitem {V} (d : dict V) (k : string) : result V :=
  match dict_get d k with
  | Some v => Returns v
  | None => Raises ("'" ++ k ++ "'")
  end.

Definition PROVINCE_NAMES : dict string :=
  [ ("AB", "Alberta");
    ("BC", "British Columbia");
    ("MB", "Manitoba");
    ("NB", "New Brunswick");
    ("NL", "Newfoundland and Labrador");
    ("NS", "Nova Scotia");
    ("NT", "Northwest Territories");
    ("NU", "Nunavut");
    ("ON", "Ontario");
    ("PE", "Prince Edward Island");
    ("QC", "Quebec");
    ("SK", "Saskatchewan");
    ("YT", "Yukon") ].

Definition PROVINCE_TO_CLASS : dict string :=
  [ ("AB", "AlbertaIncomeTaxRate");
    ("BC", "BritishColumbiaIncomeTaxRate");
    ("MB", "ManitobaIncomeTaxRate");
    ("NB", "NewBrunswickIncomeTaxRate");
    ("NL", "NewfoundlandIncomeTaxRate");
    ("NS", "NovaScotiaIncomeTaxRate");
    ("NT", "NorthwestTerritoriesIncomeTaxRate");
    ("NU", "NunavutIncomeTaxRate");
    ("ON", "OntarioIncomeTaxRate");
    ("PE", "PEIIncomeTaxRate");
    ("QC", "QuebecIncomeTaxRate");
    ("SK", "SaskatchewanIncomeTaxRate");
    ("YT", "YukonIncomeTaxRate") ].

(** ** The rate provider

    The [canatax] package is not part of the repository. A rate class is
    modelled by what calling it without arguments yields: a rate object, or
    an [Exception] with its message. A call that does not come back, or
    that raises outside [Exception] ([SystemExit], [KeyboardInterrupt]),
    which the script would not catch, is a provider this model does not
    describe. The module [rates_2025] is the record of the fourteen
    classes the script reads from it. *)

Definition rate_class : Type := result tax_rate_obj.

Record rates_module : Type := mkRates {
  FederalIncomeTaxRate : rate_class;
  AlbertaIncomeTaxRate : rate_class;
  BritishColumbiaIncomeTaxRate : rate_class;
  ManitobaIncomeTaxRate : rate_class;
  NewBrunswickIncomeTaxRate : rate_class;
  NewfoundlandIncomeTaxRate : rate_class;
  NovaScotiaIncomeTaxRate : rate_class;
  NorthwestTerritoriesIncomeTaxRate : rate_class;
  NunavutIncomeTaxRate : rate_class;
  OntarioIncomeTaxRate : rate_class;
  PEIIncomeTaxRate : rate_class;
  QuebecIncomeTaxRate : rate_class;
  SaskatchewanIncomeTaxRate : rate_class;
  YukonIncomeTaxRate : rate_class
}.

(** The dict literal built at the start of [generate_tax_data]. *)
Definition tax_rate_classes_of (rates_2025 : rates_module) : dict rate_class :=
  [ ("FederalIncomeTaxRate", FederalIncomeTaxRate rates_2025);
    ("AlbertaIncomeTaxRate", AlbertaIncomeTaxRate rates_2025);
    ("BritishColumbiaIncomeTaxRate", BritishColumbiaIncomeTaxRate rates_2025);
    ("ManitobaIncomeTaxRate", ManitobaIncomeTaxRate rates_2025);
    ("NewBrunswickIncomeTaxRate", NewBrunswickIncomeTaxRate rates_2025);
    ("NewfoundlandIncomeTaxRate", NewfoundlandIncomeTaxRate rates_2025);
    ("NovaScotiaIncomeTaxRate", NovaScotiaIncomeTaxRate rates_2025);
    ("NorthwestTerritoriesIncomeTaxRate",
       NorthwestTerritoriesIncomeTaxRate rates_2025);
    ("NunavutIncomeTaxRate", NunavutIncomeTaxRate rates_2025);
    ("OntarioIncomeTaxRate", OntarioIncomeTaxRate rates_2025);
    ("PEIIncomeTaxRate", PEIIncomeTaxRate rates_2025);
    ("QuebecIncomeTaxRate", QuebecIncomeTaxRate rates_2025);
    ("SaskatchewanIncomeTaxRate", SaskatchewanIncomeTaxRate rates_2025);
    ("YukonIncomeTaxRate", YukonIncomeTaxRate rates_2025) ].

(** ** Effects: standard output, the file system, [sys.exit] *)

Record world : Type := mkWorld {
  stdout : list string;              (* the text of each [print] so far *)
  files : string -> option string;   (* the content of each existing file *)
  clock : Z                          (* what [datetime.now()] would read *)
}.

(** How a computation ends: normally, by [sys.exit], or by an exception
    that nothing catches. *)
Inductive outcome (A : Type) : Type :=
| Done (a : A)
| SystemExit (code : Z)
| Uncaught (msg : string).
Arguments Done {A} a.
Arguments SystemExit {A} code.
Arguments Uncaught {A} msg.

Definition IO (A : Type) : Type := world -> outcome A * world.

Definition ret {A} (a : A) : IO A := fun w => (Done a, w).

Definition io_bind {A B} (c : IO A) (k : A -> IO B) : IO B :=
  fun w =>
    match c w with
    | (Done a, w') => k a w'
    | (SystemExit code, w') => (SystemExit code, w')
    | (Uncaught msg, w') => (Uncaught msg, w')
    end.

Declare Scope io_scope.
Delimit Scope io_scope with io.
Notation "x <- c ;; k" := (io_bind c (fun x => k))
  (at level 61, c at next level, right associativity) : io_scope.
Notation "c ;; k" := (io_bind c (fun _ => k))
  (at level 61, right associativity) : io_scope.
Local Open Scope io_scope.

(** [print(s)]. *)
Definition print (s : string) : IO unit :=
  fun w => (Done tt, mkWorld (stdout w ++ [s]) (files w) (clock w)).

(** [sys.exit(code)]. *)
Definition sys_exit {A} (code : Z) : IO A :=
  fun w => (SystemExit code, w).

(** An expression of the script itself: its exception, if any, is not
    caught. *)
Definition lift {A} (r : result A) : IO A :=
  fun w =>
    match r with
    | Returns a => (Done a, w)
    | Raises msg => (Uncaught msg, w)
    end.

(** [with open(path, 'w', encoding='utf-8') as f:] with [content] written
    by the time the block is left: the file is created or replaced. *)
Definition write_file (path content : string) : IO unit :=
  fun w =>
    (Done tt,
     mkWorld (stdout w)
       (fun p => if String.eqb p path then Some content else files w p)
       (clock w)).

(** The status the interpreter exits with. *)
Definition exit_status {A} (o : outcome A) : Z :=
  match o with
  | Done _ => 0
  | SystemExit code => code
  | Uncaught _ => 1
  end.

(** ** The fetchers *)

(** The dict [{"name": .., "brackets": ..}] of one province. *)
Record JurisdictionBrackets : Type := mkJurisdiction {
  j_name : string;
  j_brackets : list Bracket
}.

(** The body of the [try] of [get_federal_brackets]. *)
Definition fetch_federal (tax_rate_classes : dict rate_class)
    : result (list Bracket) :=
  bind (dict_getitem tax_rate_classes "FederalIncomeTaxRate") (fun cls =>
  bind cls (fun fed => format_brackets fed)).

Definition get_federal_brackets (tax_rate_classes : dict rate_class)
    : IO (option (list Bracket)) :=
  match fetch_federal tax_rate_classes with
  | Returns formatted => ret (Some formatted)
  | Raises e =>
    print ("Error fetching federal brackets: " ++ e) ;;
    ret None
  end.

(** [not class_name]: true of [None] and of the empty string. *)
Definition falsy (class_name : option string) : bool :=
  match class_name with
  | None => true
  | Some s => String.eqb s ""
  end.

(** What the [try] of [get_provincial_brackets] does once the class name
    is known to be registered. *)
Definition fetch_provincial (tax_rate_classes : dict rate_class)
    (province_code class_name : string) : result JurisdictionBrackets :=
  bind (dict_getitem tax_rate_classes class_name) (fun cls =>
  bind cls (fun prov_obj =>
  bind (format_brackets prov_obj) (fun formatted =>
  Returns (mkJurisdiction
             match dict_get PROVINCE_NAMES province_code with
             | Some n => n
             | None => province_code
             end
             formatted)))).

Definition get_provincial_brackets (tax_rate_classes : dict rate_class)
    (province_code : string) : IO (option JurisdictionBrackets) :=
  let class_name := dict_get PROVINCE_TO_CLASS province_code in
  match class_name with
  | Some cn =>
    if falsy class_name || negb (dict_contains tax_rate_classes cn) then
      print ("No tax rate class found for " ++ province_code) ;;
      ret None
    else
      match fetch_provincial tax_rate_classes province_code cn with
      | Returns data => ret (Some data)
      | Raises e =>
        print ("Error fetching brackets for " ++ province_code ++ ": " ++ e) ;;
        ret None
      end
  | None =>
    print ("No tax rate class found for " ++ province_code) ;;
    ret None
  end.

(** ** The document assembler *)

Record TaxDocument : Type := mkDocument {
  year : Z;
  federal : list Bracket;
  provincial : dict JurisdictionBrackets
}.

(** The [for province_code in PROVINCE_NAMES.keys()] loop. *)
Fixpoint provincial_loop (tax_rate_classes : dict rate_class)
    (codes : list string) (provincial : dict JurisdictionBrackets)
    : IO (dict JurisdictionBrackets) :=
  match codes with
  | [] => ret provincial
  | province_code :: codes' =>
    print ("Fetching brackets for " ++ province_code ++ "...") ;;
    brackets <- get_provincial_brackets tax_rate_classes province_code ;;
    match brackets with
    | Some data =>
      provincial_loop tax_rate_classes codes'
        (dict_set provincial province_code data)
    | None =>
      print ("Failed to get brackets for " ++ province_code) ;;
      provincial_loop tax_rate_classes codes' provincial
    end
  end.

(** [canatax] is [None] when the import fails. *)
Definition generate_tax_data (canatax : option rates_module)
    : IO TaxDocument :=
  match canatax with
  | None =>
    print "Error: canatax package not installed." ;;
    print "Please install it with 'pip install canatax'." ;;
    sys_exit 1
  | Some rates_2025 =>
    let tax_rate_classes := tax_rate_classes_of rates_2025 in
    let year := 2025 in
    print ("Generating tax brackets for year: " ++ str_int year) ;;
    print "Fetching federal brackets..." ;;
    federal <- get_federal_brackets tax_rate_classes ;;
    match federal with
    | None =>
      print "Failed to get federal brackets" ;;
      sys_exit 1
    | Some federal =>
      provincial <- provincial_loop tax_rate_classes
                      (dict_keys PROVINCE_NAMES) [] ;;
      ret (mkDocument year federal provincial)
    end
  end.

(** ** The JSON writer

    [json.dump(tax_data, f, indent=2, ensure_ascii=False)], following the
    pure-Python encoder of the standard library. *)

#[warnings="-register-all"]
Inductive json : Type :=
| JInt (n : Z)
| JFloat (f : float)
| JString (s : string)
| JList (items : list json)
| JDict (items : list (string * json)).

Definition newline : string := String "010"%char EmptyString.
Definition quote : string := String "034"%char EmptyString.
Definition backslash : string := String "092"%char EmptyString.

Fixpoint str_repeat (s : string) (n : nat) : string :=
  match n with
  | O => EmptyString
  | S n' => s ++ str_repeat s n'
  end.

Definition hex_digit (n : nat) : string :=
  match n with
  | 0 => "0" | 1 => "1" | 2 => "2" | 3 => "3" | 4 => "4" | 5 => "5"
  | 6 => "6" | 7 => "7" | 8 => "8" | 9 => "9" | 10 => "a" | 11 => "b"
  | 12 => "c" | 13 => "d" | 14 => "e" | _ => "f"
  end%nat.

(** [ESCAPE_DCT] of [json.encoder]: the quote, the backslash and the
    control characters are escaped, every other byte is kept. *)
Definition escape_char (c : ascii) : string :=
  let n := nat_of_ascii c in
  if Nat.eqb n 34 then backslash ++ quote
  else if Nat.eqb n 92 then backslash ++ backslash
  else if Nat.eqb n 8 then backslash ++ "b"
  else if Nat.eqb n 12 then backslash ++ "f"
  else if Nat.eqb n 10 then backslash ++ "n"
  else if Nat.eqb n 13 then backslash ++ "r"
  else if Nat.eqb n 9 then backslash ++ "t"
  else if Nat.ltb n 32 then
    backslash ++ "u00" ++ hex_digit (n / 16) ++ hex_digit (n mod 16)
  else String c EmptyString.

Fixpoint escape (s : string) : string :=
  match s with
  | EmptyString => EmptyString
  | String c s' => escape_char c ++ escape s'
  end.

(** [py_encode_basestring]. *)
Definition encode_basestring (s : string) : string :=
  quote ++ escape s ++ quote.

Section Writer.

(** [float.__repr__] of a finite float: the shortest decimal text that
    reads back as the same float. It belongs to the interpreter, not to
    the script, and is left open. *)
Variable float_repr : float -> string.

(** [floatstr] of [json.encoder], with [allow_nan] at its default. *)
Definition floatstr (o : float) : string :=
  if negb (PrimFloat.eqb o o) then "NaN"
  else if PrimFloat.eqb o infinity then "Infinity"
  else if PrimFloat.eqb o neg_infinity then "-Infinity"
  else float_repr o.

Definition newline_indent (level : nat) : string :=
  newline ++ str_repeat "  " level.

(** What an encoder has handed to the file: all of the text, or the text
    up to the point where an int refused to be converted. *)
Inductive encoded : Type :=
| Complete (text : string)
| Broken (text : string) (msg : string).

Definition after (s : string) (e : encoded) : encoded :=
  match e with
  | Complete text => Complete (s ++ text)
  | Broken text msg => Broken (s ++ text) msg
  end.

Definition and_then (e rest : encoded) : encoded :=
  match e with
  | Complete text => after text rest
  | Broken _ _ => e
  end.

(** [_iterencode] with the chunks written one after the other; [level] is
    [_current_indent_level]. [buf] is the text that precedes the value
    inside its container; a list keeps it back ([held]) until a scalar
    element has been converted, a dict has written it already. *)
Fixpoint iterencode_chunks (o : json) (level : nat)
    (buf : string) (held : bool) : encoded :=
  match o with
  | JInt n =>
    match repr_int n with
    | Returns s => Complete (buf ++ s)
    | Raises msg => Broken (if held then EmptyString else buf) msg
    end
  | JFloat f => Complete (buf ++ floatstr f)
  | JString s => Complete (buf ++ encode_basestring s)
  | JList [] => Complete (buf ++ "[]")
  | JList lst =>
    after buf
      ((fix each (l : list json) (first : bool) : encoded :=
          match l with
          | [] => Complete (newline_indent level ++ "]")
          | value :: l' =>
            and_then
              (iterencode_chunks value (S level)
                 (if first then "[" ++ newline_indent (S level)
                  else "," ++ newline_indent (S level)) true)
              (each l' false)
          end) lst true)
  | JDict [] => Complete (buf ++ "{}")
  | JDict dct =>
    after (buf ++ "{" ++ newline_indent (S level))
      ((fix each (l : list (string * json)) (first : bool) : encoded :=
          match l with
          | [] => Complete (newline_indent level ++ "}")
          | (key, value) :: l' =>
            and_then
              (iterencode_chunks value (S level)
                 ((if first then EmptyString
                   else "," ++ newline_indent (S level))
                  ++ encode_basestring key ++ ": ") false)
              (each l' false)
          end) dct true)
  end.

(** The text of a complete encoding. *)
Fixpoint iterencode (o : json) (level : nat) : string :=
  match o with
  | JInt n => str_int n
  | JFloat f => floatstr f
  | JString s => encode_basestring s
  | JList [] => "[]"
  | JList lst =>
    "[" ++ newline_indent (S level) ++
    (fix each (l : list json) (first : bool) : string :=
       match l with
       | [] => EmptyString
       | value :: l' =>
         (if first then EmptyString else "," ++ newline_indent (S level))
         ++ iterencode value (S level) ++ each l' false
       end) lst true
    ++ newline_indent level ++ "]"
  | JDict [] => "{}"
  | JDict dct =>
    "{" ++ newline_indent (S level) ++
    (fix each (l : list (string * json)) (first : bool) : string :=
       match l with
       | [] => EmptyString
       | (key, value) :: l' =>
         (if first then EmptyString else "," ++ newline_indent (S level))
         ++ encode_basestring key ++ ": "
         ++ iterencode value (S level) ++ each l' false
       end) dct true
    ++ newline_indent level ++ "}"
  end.

Definition json_of_num (x : num) : json :=
  match x with
  | PyInt n => JInt n
  | PyFloat f => JFloat f
  end.

Definition json_of_bracket (b : Bracket) : json :=
  JDict [ ("min", json_of_num (b_min b));
          ("max", match b_max b with
                  | MaxNum x => json_of_num x
                  | MaxStr s => JString s
                  end);
          ("rate", JFloat (b_rate b)) ].

Definition json_of_jurisdiction (j : JurisdictionBrackets) : json :=
  JDict [ ("name", JString (j_name j));
          ("brackets", JList (map json_of_bracket (j_brackets j))) ].

Definition json_of_document (d : TaxDocument) : json :=
  JDict [ ("year", JInt (year d));
          ("federal", JList (map json_of_bracket (federal d)));
          ("provincial",
           JDict (map (fun kv => (fst kv, json_of_jurisdiction (snd kv)))
                      (provincial d))) ].

(** The text [json.dump] writes for a document it can encode. *)
Definition json_dump (tax_data : TaxDocument) : string :=
  iterencode (json_of_document tax_data) 0.

(** [json.dump(tax_data, f, indent=2, ensure_ascii=False)]: what reaches
    the file. *)
Definition json_dump_chunks (tax_data : TaxDocument) : encoded :=
  iterencode_chunks (json_of_document tax_data) 0 EmptyString false.

(** ** The entry point *)

Definition len {A} (l : list A) : Z := Z.of_nat (List.length l).

(** The year and the two lengths that [main] prints are far below the
    limit of [repr_int]; their text is [str_int]. *)
Definition main (canatax : option rates_module) : IO unit :=
  print (str_repeat "=" 50) ;;
  print "RRSP Loan Maximizer - Tax Bracket Generator" ;;
  print (str_repeat "=" 50) ;;
  print "" ;;
  tax_data <- generate_tax_data canatax ;;
  let year := year tax_data in
  let output_file := "tax_brackets_" ++ str_int year ++ ".json" in
  print "" ;;
  print ("Writing to " ++ output_file ++ "...") ;;
  match json_dump_chunks tax_data with
  | Complete text => write_file output_file text
  | Broken text msg => write_file output_file text ;; lift (Raises msg)
  end ;;
  print ("Successfully generated " ++ output_file) ;;
  print "" ;;
  print "Tax data summary:" ;;
  print ("    - Year: " ++ str_int year) ;;
  print ("    - Federal brackets: " ++ str_int (len (federal tax_data))) ;;
  print ("    - Provincial brackets: "
         ++ str_int (len (provincial tax_data))) ;;
  print "" ;;
  print "The calculator will automatically load this file when opened." ;;
  print "".

End Writer.

(** ** The JavaScript printer and the command line *)

(** What the two imports of the script find: no [canatax] package at all,
    or the package, whose module [rates_2025] may still fail to import. *)
Inductive package : Type :=
| NotInstalled
| Installed (rates_2025 : option rates_module).

(** [from canatax.rates.income.tax_rates import rates_2025]. *)
Definition import_rates (pkg : package) : option rates_module :=
  match pkg with
  | NotInstalled => None
  | Installed rates_2025 => rates_2025
  end.

Section Script.

Variable float_repr : float -> string.

(** [str(f)] of a float, which is what an f-string inserts. *)
Definition str_float (f : float) : string :=
  if negb (PrimFloat.eqb f f) then "nan"
  else if PrimFloat.eqb f infinity then "inf"
  else if PrimFloat.eqb f neg_infinity then "-inf"
  else float_repr f.

(** [str(x)] of a number. *)
Definition str_num (x : num) : result string :=
  match x with
  | PyInt n => repr_int n
  | PyFloat f => Returns (str_float f)
  end.

(** [max_val] of [print_js_format], as the f-string prints it. *)
Definition js_max (m : max_value) : result string :=
  match m with
  | MaxStr s => Returns (if String.eqb s "Infinity" then "Infinity" else s)
  | MaxNum x => str_num x
  end.

(** The f-string of one bracket, after [indent]; its fields are
    converted from left to right. *)
Definition js_bracket (indent : string) (bracket : Bracket)
    : result string :=
  Py.bind (str_num (b_min bracket)) (fun min =>
  Py.bind (js_max (b_max bracket)) (fun max_val =>
  Returns (indent ++ "{ min: " ++ min ++ ", max: " ++ max_val
           ++ ", rate: " ++ str_float (b_rate bracket) ++ " },"))).

(** The [for bracket in ...] loops. *)
Fixpoint print_brackets (indent : string) (bs : list Bracket) : IO unit :=
  match bs with
  | [] => ret tt
  | bracket :: bs' =>
    line <- lift (js_bracket indent bracket) ;;
    print line ;;
    print_brackets indent bs'
  end.

(** The [for code, data in tax_data["provincial"].items()] loop. *)
Fixpoint print_provinces (items : dict JurisdictionBrackets) : IO unit :=
  match items with
  | [] => ret tt
  | (code, data) :: items' =>
    print ("    " ++ code ++ ": {") ;;
    print ("      name: '" ++ j_name data ++ "',") ;;
    print "      brackets: [" ;;
    print_brackets "        " (j_brackets data) ;;
    print "      ]" ;;
    print "    }," ;;
    print_provinces items'
  end.

(** The year is far below the limit of [repr_int]; its text is
    [str_int]. *)
Definition print_js_format (pkg : package) : IO unit :=
  match pkg with
  | NotInstalled =>
    print "Error: canatax package not installed." ;;
    sys_exit 1
  | Installed _ => ret tt
  end ;;
  tax_data <- generate_tax_data (import_rates pkg) ;;
  let year := year tax_data in
  print (newline ++ "// Tax brackets for " ++ str_int year
         ++ " (generated by canatax)") ;;
  print ("// Add this to the TAX_DATA object in script.js" ++ newline) ;;
  print (str_int year ++ ": {") ;;
  print "  federal: [" ;;
  print_brackets "    " (federal tax_data) ;;
  print "  ]," ;;
  print "  provincial: {" ;;
  print_provinces (provincial tax_data) ;;
  print "  }" ;;
  print "}".

(** The [if __name__ == "__main__":] block, on [sys.argv]. *)
Definition script (argv : list string) (pkg : package) : IO unit :=
  match argv with
  | _ :: arg :: _ =>
    if String.eqb arg "--js" then print_js_format pkg
    else main float_repr (import_rates pkg)
  | _ => main float_repr (import_rates pkg)
  end.

End Script.

(** ** Auxiliary definitions for the statements *)

(** The number can be turned into text: every float can, an int unless
    it has more than [int_max_str_digits] digits. *)
Definition printable (x : num) : bool :=
  match x with
  | PyInt n =>
    match repr_int n with
    | Returns _ => true
    | Raises _ => false
    end
  | PyFloat _ => true
  end.


Definition bracket_printable (b : Bracket) : bool :=
  printable (b_min b)
  && match b_max b with
     | MaxNum x => printable x
     | MaxStr _ => true
     end.

(** Every int of the document is printable. *)
Definition document_printable (d : TaxDocument) : bool :=
  printable (PyInt (year d))
  && forallb bracket_printable (federal d)
  && forallb (fun kv => forallb bracket_printable (j_brackets (snd kv)))
       (provincial d).

Fixpoint json_printable (o : json) : bool :=
  match o with
  | JInt n => printable (PyInt n)
  | JFloat _ | JString _ => true
  | JList lst => forallb json_printable lst
  | JDict dct => forallb (fun kv => json_printable (snd kv)) dct
  end.

(** The rate percentage [x] can be divided by [100]: every float can, an
    int can unless the quotient is too large for a float. *)
Definition divisible (x : num) : bool :=
  match truediv_100 x with
  | Returns _ => true
  | Raises _ => false
  end.




(** Python's [x == m] between a ["min"] and a ["max"] value: a number
    never equals a string. *)
Definition eq_max (x : num) (m : max_value) : bool :=
  match m with
  | MaxNum y => Py.eq x y
  | MaxStr _ => false
  end.

(** A number that is neither an infinity nor a NaN. *)
Definition finite (x : num) : bool :=
  match x with
  | PyInt _ => true
  | PyFloat f => PrimFloat.is_finite f
  end.

(** The world [w] after more [lines] were printed. *)
Definition log (w : world) (lines : list string) : world :=
  mkWorld (stdout w ++ lines) (files w) (clock w).

(** Only printing happened between [w] and [w']. *)
Definition prints (w w' : world) : Prop :=
  exists lines, w' = log w lines.

(** The world [w] after [path] was given [content] and [lines] were
    printed. *)
Definition written (w : world) (path content : string)
    (lines : list string) : world :=
  mkWorld (stdout w ++ lines)
    (fun p => if String.eqb p path then Some content else files w p)
    (clock w).

(** Between [w] and [w'] the file [path] was given [content], and lines
    were printed; nothing else changed. *)
Definition writes (path content : string) (w w' : world) : Prop :=
  exists lines, w' = written w path content lines.

(** The value [get_federal_brackets] returns. *)
Definition federal_data (tax_rate_classes : dict rate_class)
    : option (list Bracket) :=
  match fetch_federal tax_rate_classes with
  | Returns formatted => Some formatted
  | Raises _ => None
  end.

(** The value [get_provincial_brackets] returns. *)
Definition provincial_data (tax_rate_classes : dict rate_class)
    (province_code : string) : option JurisdictionBrackets :=
  match dict_get PROVINCE_TO_CLASS province_code with
  | Some cn =>
    if falsy (Some cn) || negb (dict_contains tax_rate_classes cn) then None
    else
      match fetch_provincial tax_rate_classes province_code cn with
      | Returns data => Some data
      | Raises _ => None
      end
  | None => None
  end.

(** A province is in the map when its fetch returned data. *)
Definition fetched (tax_rate_classes : dict rate_class) (code : string)
    : bool :=
  match provincial_data tax_rate_classes code with
  | Some _ => true
  | None => false
  end.

(** The map the provincial loop builds. *)
Definition assemble_provincial (tax_rate_classes : dict rate_class)
    (codes : list string) (acc : dict JurisdictionBrackets)
    : dict JurisdictionBrackets :=
  fold_left
    (fun acc code =>
       match provincial_data tax_rate_classes code with
       | Some data => dict_set acc code data
       | None => acc
       end)
    codes acc.

(** The document a run assembles, when the federal fetch succeeds. *)
Definition document_of (rates_2025 : rates_module) : option TaxDocument :=
  let tax_rate_classes := tax_rate_classes_of rates_2025 in
  match federal_data tax_rate_classes with
  | Some fed =>
    Some (mkDocument 2025 fed
            (assemble_provincial tax_rate_classes
               (dict_keys PROVINCE_NAMES) []))
  | None => None
  end.

(** The rate class the script calls for a province. *)
Definition class_of (rates_2025 : rates_module) (province_code : string)
    : option rate_class :=
  match dict_get PROVINCE_TO_CLASS province_code with
  | Some cn => dict_get (tax_rate_classes_of rates_2025) cn
  | None => None
  end.



Definition output_file : string := "tax_brackets_2025.json".

(** The lines [get_federal_brackets] prints. *)
Definition federal_log (tax_rate_classes : dict rate_class) : list string :=
  match fetch_federal tax_rate_classes with
  | Returns _ => []
  | Raises e => ["Error fetching federal brackets: " ++ e]
  end.

(** The lines [get_provincial_brackets] prints. *)
Definition fetch_log (tax_rate_classes : dict rate_class)
    (province_code : string) : list string :=
  match dict_get PROVINCE_TO_CLASS province_code with
  | Some cn =>
    if falsy (Some cn) || negb (dict_contains tax_rate_classes cn) then
      ["No tax rate class found for " ++ province_code]
    else
      match fetch_provincial tax_rate_classes province_code cn with
      | Returns _ => []
      | Raises e =>
        ["Error fetching brackets for " ++ province_code ++ ": " ++ e]
      end
  | None => ["No tax rate class found for " ++ province_code]
  end.

(** The lines one turn of the provincial loop prints. *)
Definition province_log (tax_rate_classes : dict rate_class)
    (province_code : string) : list string :=
  ([("Fetching brackets for " ++ province_code ++ "...")%string]
   ++ fetch_log tax_rate_classes province_code
   ++ (if fetched tax_rate_classes province_code then []
       else [("Failed to get brackets for " ++ province_code)%string]))%list.

(** The lines [generate_tax_data] prints once the package is imported. *)
Definition generate_log (rates_2025 : rates_module) : list string :=
  let tax_rate_classes := tax_rate_classes_of rates_2025 in
  (["Generating tax brackets for year: 2025"; "Fetching federal brackets..."]
   ++ federal_log tax_rate_classes
   ++ match federal_data tax_rate_classes with
      | Some _ =>
        flat_map (province_log tax_rate_classes) (dict_keys PROVINCE_NAMES)
      | None => ["Failed to get federal brackets"]
      end)%list.

(** The lines [main] prints before it calls [generate_tax_data]. *)
Definition banner : list string :=
  [ str_repeat "=" 50;
    "RRSP Loan Maximizer - Tax Bracket Generator";
    str_repeat "=" 50;
    "" ].

(** The lines [main] prints before it opens the file. *)
Definition announcement : list string :=
  [ ""; "Writing to tax_brackets_2025.json..." ].

(** The lines [main] prints from the write on. *)
Definition summary (tax_data : TaxDocument) : list string :=
  [ "";
    "Writing to tax_brackets_2025.json...";
    "Successfully generated tax_brackets_2025.json";
    "";
    "Tax data summary:";
    "    - Year: 2025";
    "    - Federal brackets: " ++ str_int (len (federal tax_data));
    "    - Provincial brackets: " ++ str_int (len (provincial tax_data));
    "";
    "The calculator will automatically load this file when opened.";
    "" ].

(** ** Exact values and rounding

    The exact value of a float, as a rational, and the integers
    [SFdiv] goes through on its way from two mantissas to the rounded
    quotient. *)

(** The exact value of a float that is a number. *)
Definition SF2Q (f : spec_float) : option Q :=
  match f with
  | S754_zero _ => Some 0%Q
  | S754_finite s m e => Some (inject_Z (cond_Zopp s (Z.pos m)) * 2 ^ e)%Q
  | _ => None
  end.

Definition float_value (f : float) : option Q := SF2Q (Prim2SF f).

(** The exact value of a Python number. *)
Definition num_value (x : num) : option Q :=
  match x with
  | PyInt n => Some (inject_Z n)
  | PyFloat f => float_value f
  end.















(** ** Sample inputs *)

(** The federal schedule the specification uses as its example. *)
Definition federal_example : tax_rate_obj :=
  mkRateObj [(PyInt 15, PyInt 57375); (PyFloat 20.5, Py.inf)].

(** What the specification expects for it; [0.15] and [0.205] stand for
    the floats nearest to them, as in Python. *)
#[warnings="-inexact-float"]
Definition federal_formatted : list Bracket :=
  [ mkBracket (PyInt 0) (MaxNum (PyInt 57375)) 0.15;
    mkBracket (PyInt 57375) (MaxStr "Infinity") 0.205 ].

(** A schedule with an int rate whose hundredth exceeds every float. *)
Definition overflow_example : tax_rate_obj :=
  mkRateObj [(PyInt (10 ^ 400), PyInt 50000)].

(** A schedule whose rate has no exact hundredth among the floats. *)
#[warnings="-inexact-float"]
Definition inexact_example : tax_rate_obj :=
  mkRateObj [(PyFloat 5.05, Py.inf)].


(** A schedule whose two upper bounds both are the sentinel. *)
Definition tied_example : tax_rate_obj :=
  mkRateObj [(PyInt 15, Py.inf); (PyFloat 20.5, Py.inf)].

(** What [format_brackets] makes of [tied_example]. *)
#[warnings="-inexact-float"]
Definition tied_formatted : list Bracket :=
  [ mkBracket (PyInt 0) (MaxStr "Infinity") 0.15;
    mkBracket Py.inf (MaxStr "Infinity") 0.205 ].

(** A provider whose every class hands out [federal_example]. *)
Definition rates_example : rates_module :=
  let c := Returns federal_example in
  mkRates c c c c c c c c c c c c c c.

(** The same provider with the Quebec class raising. *)
Definition rates_quebec_down : rates_module :=
  let c := Returns federal_example in
  mkRates c c c c c c c c c c c (Raises "no data") c c.


(** A schedule whose first upper bound has 4301 digits. *)
Definition unprintable_example : tax_rate_obj :=
  mkRateObj [(PyInt 15, PyInt (10 ^ 4300)); (PyFloat 20.5, Py.inf)].

(** Quebec raises, and Alberta hands out [unprintable_example]. *)
Definition rates_alberta_unprintable : rates_module :=
  let c := Returns federal_example in
  mkRates c (Returns unprintable_example) c c c c c c c c c
    (Raises "no data") c c.


(** The federal class and the Alberta class hand out empty schedules. *)
Definition rates_empty : rates_module :=
  let c := Returns federal_example in
  let e := Returns (mkRateObj []) in
  mkRates e e c c c c c c c c c c c c.

(** The federal class raises. *)
Definition rates_federal_down : rates_module :=
  let c := Returns federal_example in
  mkRates (Raises "no data") c c c c c c c c c c c c c.

(** A fresh world, and one where an earlier run left output behind. *)
Definition world_example : world := mkWorld [] (fun _ => None) 0.

Definition world_stale : world :=
  mkWorld ["earlier output"]
    (fun p => if String.eqb p output_file then Some "stale" else None)
    1762128000.

(** A stand-in for [float.__repr__], right on the two rates of
    [federal_example]. *)
#[warnings="-inexact-float"]
Definition repr_example (f : float) : string :=
  if PrimFloat.eqb f 0.15 then "0.15" else "0.205".

(** * Properties *)

(** ** Comparisons with the infinity sentinel *)

Lemma Prim2SF_infinity : Prim2SF infinity = S754_infinity false.
Proof. reflexivity. Qed.

Lemma SFeqb_infinity (x : spec_float) :
  SFeqb x (S754_infinity false) = true -> x = S754_infinity false.
Proof.
  destruct x as [s | s | | s m e]; unfold SFeqb; simpl;
    try destruct s; simpl; congruence.
Qed.

Lemma eqb_infinity (f : float) :
  PrimFloat.eqb f infinity = true -> Prim2SF f = S754_infinity false.
Proof.
  rewrite eqb_spec, Prim2SF_infinity. apply SFeqb_infinity.
Qed.

Lemma SFltb_infinity (y : spec_float) : SFltb (S754_infinity false) y = false.
Proof.
  destruct y as [s | s | | s m e]; unfold SFltb; simpl;
    try destruct s; reflexivity.
Qed.


(** An int is never the sentinel. *)
Lemma int_not_inf (n : Z) : Py.eq (PyInt n) Py.inf = false.
Proof.
  unfold Py.eq, Py.inf, Z_compare_float. rewrite Prim2SF_infinity.
  reflexivity.
Qed.


(** A finite number is not the sentinel. *)
Lemma finite_not_inf (x : num) : finite x = true -> Py.eq x Py.inf = false.
Proof.
  destruct x as [a | f]; [intros _; apply int_not_inf |].
  unfold Py.inf; simpl. unfold PrimFloat.is_finite, PrimFloat.is_infinity.
  intros H. apply negb_true_iff, orb_false_iff in H. destruct H as [_ H].
  destruct (PrimFloat.eqb f infinity) eqn:E; [| reflexivity].
  apply eqb_infinity in E.
  rewrite eqb_spec, abs_spec, E, Prim2SF_infinity in H. discriminate.
Qed.



(** ** The loop of [format_brackets] *)

Section FormatBrackets.

Variable bs : list (num * num).

(** What one turn of the loop stores in the dict it appends. *)
Lemma format_one_inv (i : nat) (rate_pct max_val : num) (b : Bracket) :
  format_one bs i rate_pct max_val = Returns b ->
  truediv_100 rate_pct = Returns (b_rate b) /\
  b_max b = (if Py.eq max_val Py.inf then MaxStr "Infinity"
             else MaxNum max_val) /\
  (i = 0%nat -> b_min b = PyInt 0) /\
  (forall j p, i = S j -> nth_error bs j = Some p -> b_min b = snd p).
Proof.
  unfold format_one. intros H.
  destruct i as [| j]; simpl in H.
  - destruct (truediv_100 rate_pct) as [r | e]; simpl in H; [| discriminate].
    inversion H; subst; simpl. repeat split; auto. discriminate.
  - rewrite Nat.sub_0_r in H. unfold index_upper in H.
    destruct (nth_error bs j) as [q |] eqn:Hj; simpl in H; [| discriminate].
    destruct (truediv_100 rate_pct) as [r | e]; simpl in H; [| discriminate].
    inversion H; subst; simpl. repeat split; auto; try discriminate.
    intros j' p Hjj' Hp. inversion Hjj'; subst. congruence.
Qed.

(** The loop appends one dict per pair left to visit, in order. *)
Lemma format_loop_returns (rest : list (num * num)) :
  forall i acc out,
    format_loop bs i rest acc = Returns out ->
    exists out',
      out = (acc ++ out')%list /\
      List.length out' = List.length rest /\
      forall j p,
        nth_error rest j = Some p ->
        exists b,
          nth_error out' j = Some b /\
          format_one bs (i + j) (fst p) (snd p) = Returns b.
Proof.
  induction rest as [| [rate_pct max_val] rest' IH]; intros i acc out H.
  - simpl in H. inversion H; subst. exists []. rewrite app_nil_r.
    repeat split; auto. intros j p Hj. destruct j; discriminate.
  - simpl in H.
    destruct (format_one bs i rate_pct max_val) as [b | e] eqn:Hb;
      simpl in H; [| discriminate].
    destruct (IH _ _ _ H) as (out'' & Hout & Hlen & Hnth).
    exists (b :: out''). repeat split.
    + rewrite Hout, <- app_assoc. reflexivity.
    + simpl. now rewrite Hlen.
    + intros j p Hj. destruct j as [| j]; simpl in Hj.
      * inversion Hj; subst. exists b. rewrite Nat.add_0_r. auto.
      * destruct (Hnth j p Hj) as (b' & Hb' & Hf).
        exists b'. rewrite Nat.add_succ_r. auto.
Qed.



End FormatBrackets.

(** The output has one dict per input pair, built from that pair. *)
Lemma format_brackets_nth (obj : tax_rate_obj) (out : list Bracket) :
  format_brackets obj = Returns out ->
  List.length out = List.length (brackets obj) /\
  forall j p,
    nth_error (brackets obj) j = Some p ->
    exists b,
      nth_error out j = Some b /\
      format_one (brackets obj) j (fst p) (snd p) = Returns b.
Proof.
  unfold format_brackets. intros H.
  destruct (format_loop_returns _ _ _ _ _ H) as (out' & Hout & Hlen & Hnth).
  simpl in Hout. subst out'. auto.
Qed.


(** ** Division rounds to nearest

    [SFdiv], which the model of [/] on two ints shares with the
    division of floats, returns a float nearest to the exact quotient.
    The mantissas are followed through [SFdiv_core_binary] and
    [binary_round_aux] as integers, the values compared as rationals. *)









(** ** Shifting a mantissa right *)










(** ** The quotient *)



(** ** Rounding the quotient *)









Section RoundDiv.

Variables N D e : Z.
Hypothesis HN : 0 <= N.
Hypothesis HD : 0 < D.

(** The exponent is not above the canonical one of the quotient, as
    [SFdiv_core_binary] makes sure. *)
Hypothesis He : e <= fexp prec emax (Zdigits2 (N / D) + e).









End RoundDiv.


Section Values.

Local Open Scope Q_scope.







Section Nearest.

Variables N D e : Z.
Hypothesis HN : (0 <= N)%Z.
Hypothesis HD : (0 < D)%Z.
Hypothesis He : (e <= fexp prec emax (Zdigits2 (N / D) + e))%Z.









End Nearest.




End Values.









(** ** The bracket normaliser *)

Lemma nth_error_in_range {A} (l : list A) (i : nat) :
  (i < List.length l)%nat -> exists x, nth_error l i = Some x.
Proof.
  intros H. destruct (nth_error l i) as [x |] eqn:E; [eauto |].
  apply nth_error_None in E. lia.
Qed.

Lemma nth_error_length {A} (l : list A) (i : nat) (x : A) :
  nth_error l i = Some x -> (i < List.length l)%nat.
Proof. intros H. apply nth_error_Some. congruence. Qed.

(** The example of the specification: [(15, 57375), (20.5, inf)]. *)
Lemma format_brackets_federal_example :
  format_brackets federal_example = Returns federal_formatted.
Proof. vm_compute. reflexivity. Qed.







(** C4 (as stated) fails: the conversion is not exact. The rate 5.05
    becomes the float written 0.050499999999999996, which is not the
    float written 0.0505 and whose hundredfold is not the rate; and the
    float 0.15 that 15 becomes is not fifteen hundredths either. *)
#[warnings="-inexact-float"]
Lemma format_brackets_rate_counterexample :
  format_brackets inexact_example
  = Returns [ mkBracket (PyInt 0) (MaxStr "Infinity")
                0.050499999999999996 ] /\
  PrimFloat.eqb 0.050499999999999996 0.0505 = false /\
  (exists q v,
      num_value (PyFloat 5.05) = Some q /\
      float_value 0.050499999999999996 = Some v /\
      ~ (v * 100 == q)%Q) /\
  (exists v,
      truediv_100 (PyInt 15) = Returns 0.15%float /\
      float_value 0.15 = Some v /\
      ~ (v * 100 == 15)%Q).
Proof.
  split; [vm_compute; reflexivity |].
  split; [vm_compute; reflexivity |].
  split.
  - do 2 eexists.
    split; [vm_compute; reflexivity |].
    split; [vm_compute; reflexivity |].
    vm_compute. discriminate.
  - eexists.
    split; [vm_compute; reflexivity |].
    split; [vm_compute; reflexivity |].
    vm_compute. discriminate.
Qed.

(** C5: an upper bound that is the infinity sentinel is stored under
    ["max"] as the string ["Infinity"], not as a number; a finite upper
    bound is stored unchanged. *)
Theorem format_brackets_max (obj : tax_rate_obj) (out : list Bracket) :
  format_brackets obj = Returns out ->
  forall i p,
    nth_error (brackets obj) i = Some p ->
    exists b,
      nth_error out i = Some b /\
      (snd p = Py.inf ->
       b_max b = MaxStr "Infinity" /\ forall x, b_max b <> MaxNum x) /\
      (finite (snd p) = true -> b_max b = MaxNum (snd p)).
Proof.
  intros Hout i p Hp.
  destruct (format_brackets_nth obj out Hout) as [_ Hnth].
  destruct (Hnth i p Hp) as (b & Hb & Hf).
  exists b. split; [exact Hb |].
  apply format_one_inv in Hf. destruct Hf as (_ & Hmax & _).
  split.
  - intros Hinf. rewrite Hinf in Hmax.
    replace (Py.eq Py.inf Py.inf) with true in Hmax by reflexivity.
    rewrite Hmax. split; [reflexivity | discriminate].
  - intros Hfin. now rewrite (finite_not_inf _ Hfin) in Hmax.
Qed.

Lemma format_brackets_max_witness :
  format_brackets federal_example = Returns federal_formatted /\
  forall i p,
    nth_error (brackets federal_example) i = Some p ->
    exists b,
      nth_error federal_formatted i = Some b /\
      (snd p = Py.inf ->
       b_max b = MaxStr "Infinity" /\ forall x, b_max b <> MaxNum x) /\
      (finite (snd p) = true -> b_max b = MaxNum (snd p)).
Proof.
  split; [vm_compute; reflexivity |].
  apply (format_brackets_max federal_example).
  vm_compute. reflexivity.
Defined.

(** C6: when the output is not empty, its first bracket has ["min"] 0. *)
Theorem format_brackets_first_min (obj : tax_rate_obj)
    (b : Bracket) (out : list Bracket) :
  format_brackets obj = Returns (b :: out) -> b_min b = PyInt 0.
Proof.
  intros Hout. destruct (format_brackets_nth obj _ Hout) as [Hlen Hnth].
  destruct (brackets obj) as [| p bs'] eqn:Hbs; [discriminate |].
  destruct (Hnth 0%nat p eq_refl) as (c & Hc & Hf).
  simpl in Hc. inversion Hc; subst c.
  apply format_one_inv in Hf. now apply Hf.
Qed.

Lemma format_brackets_first_min_witness :
  format_brackets federal_example = Returns federal_formatted /\
  b_min (hd (mkBracket Py.inf (MaxStr "") 0) federal_formatted) = PyInt 0.
Proof.
  split; [vm_compute; reflexivity |].
  apply (format_brackets_first_min federal_example _ (tl federal_formatted)).
  vm_compute. reflexivity.
Defined.

(** C9: a jurisdiction with no bracket pairs is normalised to the empty
    list; nothing is raised. *)
Theorem format_brackets_empty (obj : tax_rate_obj) :
  brackets obj = [] -> format_brackets obj = Returns [].
Proof.
  intros H. unfold format_brackets. rewrite H. reflexivity.
Qed.

Lemma format_brackets_empty_witness :
  brackets (mkRateObj []) = [] /\ format_brackets (mkRateObj []) = Returns [].
Proof.
  split; [reflexivity |].
  apply (format_brackets_empty (mkRateObj [])). reflexivity.
Defined.

(** ** Runs: what is printed, returned and written *)

Lemma log_log (w : world) (l1 l2 : list string) :
  log (log w l1) l2 = log w (l1 ++ l2).
Proof. unfold log; simpl. now rewrite app_assoc. Qed.

Lemma prints_refl (w : world) : prints w w.
Proof. exists []. unfold log. rewrite app_nil_r. now destruct w. Qed.

Lemma prints_trans (w1 w2 w3 : world) :
  prints w1 w2 -> prints w2 w3 -> prints w1 w3.
Proof.
  intros [l1 H1] [l2 H2]. exists (l1 ++ l2)%list.
  now rewrite H2, H1, log_log.
Qed.

Lemma prints_log (w : world) (lines : list string) : prints w (log w lines).
Proof. now exists lines. Qed.

Lemma prints_files (w w' : world) : prints w w' -> files w' = files w.
Proof. intros [l H]. now subst w'. Qed.

Lemma bind_ret {A B} (a : A) (k : A -> IO B) (w : world) :
  io_bind (ret a) k w = k a w.
Proof. reflexivity. Qed.

Lemma bind_print {B} (s : string) (k : unit -> IO B) (w : world) :
  io_bind (print s) k w = k tt (log w [s]).
Proof. reflexivity. Qed.

Lemma bind_done {A B} (c : IO A) (k : A -> IO B) (w w' : world) (a : A) :
  c w = (Done a, w') -> io_bind c k w = k a w'.
Proof. unfold io_bind. now intros ->. Qed.

Lemma bind_exit {A B} (c : IO A) (k : A -> IO B) (w w' : world) (n : Z) :
  c w = (SystemExit n, w') -> io_bind c k w = (SystemExit n, w').
Proof. unfold io_bind. now intros ->. Qed.

Create HintDb runs.
#[local] Hint Resolve prints_refl prints_log : runs.

Section Fetchers.

Variable tax_rate_classes : dict rate_class.

(** [get_federal_brackets] returns [federal_data] and only prints. *)
Lemma get_federal_brackets_run (w : world) :
  exists w',
    get_federal_brackets tax_rate_classes w
    = (Done (federal_data tax_rate_classes), w') /\ prints w w'.
Proof.
  unfold get_federal_brackets, federal_data.
  destruct (fetch_federal tax_rate_classes) as [formatted | e].
  - exists w. split; [reflexivity | auto with runs].
  - rewrite bind_print. eexists. split; [reflexivity | auto with runs].
Qed.

(** [get_provincial_brackets] returns [provincial_data] and only
    prints. *)
Lemma get_provincial_brackets_run (province_code : string) (w : world) :
  exists w',
    get_provincial_brackets tax_rate_classes province_code w
    = (Done (provincial_data tax_rate_classes province_code), w') /\
    prints w w'.
Proof.
  unfold get_provincial_brackets, provincial_data.
  destruct (dict_get PROVINCE_TO_CLASS province_code) as [cn |].
  - destruct (falsy (Some cn) || negb (dict_contains tax_rate_classes cn)).
    + rewrite bind_print. eexists. split; [reflexivity | auto with runs].
    + destruct (fetch_provincial tax_rate_classes province_code cn).
      * exists w. split; [reflexivity | auto with runs].
      * rewrite bind_print. eexists. split; [reflexivity | auto with runs].
  - rewrite bind_print. eexists. split; [reflexivity | auto with runs].
Qed.

(** The loop returns [assemble_provincial] and only prints. *)
Lemma provincial_loop_run (codes : list string) :
  forall acc w,
  exists w',
    provincial_loop tax_rate_classes codes acc w
    = (Done (assemble_provincial tax_rate_classes codes acc), w') /\
    prints w w'.
Proof.
  induction codes as [| code codes' IH]; intros acc w.
  - exists w. split; [reflexivity | auto with runs].
  - simpl. rewrite bind_print.
    destruct (get_provincial_brackets_run code (log w
                ["Fetching brackets for " ++ code ++ "..."]))
      as (w1 & Hrun & Hw1).
    rewrite (bind_done _ _ _ _ _ Hrun).
    destruct (provincial_data tax_rate_classes code) as [data |].
    + destruct (IH (dict_set acc code data) w1) as (w2 & Hloop & Hw2).
      exists w2. split; [exact Hloop |].
      eauto using prints_trans with runs.
    + rewrite bind_print.
      destruct (IH acc (log w1 ["Failed to get brackets for " ++ code]))
        as (w2 & Hloop & Hw2).
      exists w2. split; [exact Hloop |].
      eauto using prints_trans with runs.
Qed.

End Fetchers.

(** A run of [generate_tax_data] only prints; it returns [document_of],
    and leaves with status 1 when there is none. *)
Lemma generate_tax_data_run (rates_2025 : rates_module) (w : world) :
  exists w',
    prints w w' /\
    generate_tax_data (Some rates_2025) w
    = (match document_of rates_2025 with
       | Some tax_data => Done tax_data
       | None => SystemExit 1
       end, w').
Proof.
  unfold generate_tax_data, document_of.
  rewrite !bind_print.
  match goal with
  | |- context [io_bind (get_federal_brackets ?t) _ ?w0] =>
    destruct (get_federal_brackets_run t w0) as (w1 & Hfed & Hw1)
  end.
  rewrite (bind_done _ _ _ _ _ Hfed).
  destruct (federal_data (tax_rate_classes_of rates_2025)) as [fed |].
  - match goal with
    | |- context [io_bind (provincial_loop ?t ?c ?a) _ ?w0] =>
      destruct (provincial_loop_run t c a w0) as (w2 & Hloop & Hw2)
    end.
    rewrite (bind_done _ _ _ _ _ Hloop).
    exists w2. split; [| reflexivity].
    eauto using prints_trans with runs.
  - rewrite bind_print. eexists. split; [| reflexivity].
    eauto using prints_trans with runs.
Qed.

(** Without the package, the run prints and leaves with status 1. *)
Lemma generate_tax_data_no_package (w : world) :
  exists w',
    prints w w' /\ generate_tax_data None w = (SystemExit 1, w').
Proof.
  unfold generate_tax_data. rewrite !bind_print.
  eexists. split; [| reflexivity]. rewrite log_log. auto with runs.
Qed.

Lemma document_of_year (rates_2025 : rates_module) (tax_data : TaxDocument) :
  document_of rates_2025 = Some tax_data -> year tax_data = 2025.
Proof.
  unfold document_of.
  generalize (assemble_provincial (tax_rate_classes_of rates_2025)
                (dict_keys PROVINCE_NAMES) []).
  intros prov.
  destruct (federal_data (tax_rate_classes_of rates_2025)); [| discriminate].
  intros [= <-]. reflexivity.
Qed.

(** The f-string [f"tax_brackets_{year}.json"] at the year of a run. *)
Lemma output_file_name :
  "tax_brackets_" ++ str_int 2025 ++ ".json" = output_file.
Proof. reflexivity. Qed.

(** ** What [json.dump] writes *)

Lemma string_app_assoc (a b c : string) :
  ((a ++ b) ++ c)%string = (a ++ (b ++ c))%string.
Proof. induction a as [| x a IH]; simpl; [reflexivity | now rewrite IH]. Qed.

Lemma repr_int_cases (n : Z) :
  (printable (PyInt n) = true /\ repr_int n = Returns (str_int n)) \/
  (printable (PyInt n) = false /\ repr_int n = Raises max_str_digits_error).
Proof.
  unfold printable, repr_int.
  destruct (Z.abs n <? int_max_str_bound); auto.
Qed.

(** Induction on a JSON value, its elements included. *)
Lemma json_induction (P : json -> Prop) :
  (forall n, P (JInt n)) ->
  (forall f, P (JFloat f)) ->
  (forall s, P (JString s)) ->
  (forall lst, Forall P lst -> P (JList lst)) ->
  (forall dct, Forall (fun kv => P (snd kv)) dct -> P (JDict dct)) ->
  forall o, P o.
Proof.
  intros HInt HFloat HString HList HDict.
  fix IH 1. intros [n | f | s | lst | dct].
  - apply HInt.
  - apply HFloat.
  - apply HString.
  - apply HList. induction lst as [| o lst IHl]; constructor.
    + apply IH.
    + exact IHl.
  - apply HDict. induction dct as [| [k o] dct IHd]; constructor.
    + apply IH.
    + exact IHd.
Qed.

Section Encoder.

Variable float_repr : float -> string.


Lemma after_after (a b : string) (e : encoded) :
  after a (after b e) = after (a ++ b) e.
Proof. destruct e; simpl; now rewrite string_app_assoc. Qed.

Lemma after_Complete (a : string) (e : encoded) (text : string) :
  e = Complete text -> after a e = Complete (a ++ text).
Proof. now intros ->. Qed.

Lemma after_Broken (a : string) (e : encoded) (text msg : string) :
  e = Broken text msg -> after a e = Broken (a ++ text) msg.
Proof. now intros ->. Qed.

Ltac string_eq := rewrite ?string_app_assoc; cbn [append]; reflexivity.

(** What the encoder does with a value: a printable one is written whole,
    after [buf]; otherwise the encoding breaks with the [ValueError] of
    [repr_int]. *)
Lemma iterencode_chunks_encodes (o : json) :
  forall level buf held,
    if json_printable o
    then iterencode_chunks float_repr o level buf held
         = Complete (buf ++ iterencode float_repr o level)
    else exists text,
        iterencode_chunks float_repr o level buf held
        = Broken text max_str_digits_error.
Proof.
  induction o as [n | f | s | lst IH | dct IH] using json_induction;
    intros level buf held.
  - cbn [json_printable iterencode_chunks iterencode].
    destruct (repr_int_cases n) as [[-> ->] | [-> ->]]; eauto.
  - reflexivity.
  - reflexivity.
  - destruct lst as [| o lst]; [reflexivity |].
    cbn [json_printable iterencode_chunks iterencode forallb].
    inversion IH as [| ? ? Ho Hl]; subst. clear IH.
    specialize (Ho (S level) ("[" ++ newline_indent (S level)) true).
    destruct (json_printable o); cbn [andb].
    2: { destruct Ho as [text ->]. cbn [and_then after]. eauto. }
    rewrite Ho. cbn [and_then]. rewrite after_after.
    match goal with
    | |- if _ then after _ (?each _ _) = Complete (_ ++ _ ++ _ ++ (_ ++ _ ++ ?txt _ _) ++ _) else _ =>
      assert (Hrest :
        if forallb json_printable lst
        then each lst false
             = Complete (txt lst false ++ newline_indent level ++ "]")
        else exists text, each lst false = Broken text max_str_digits_error)
    end.
    { clear Ho. induction Hl as [| o' l Ho' _ IHl]; [reflexivity |].
      cbn [forallb].
      specialize (Ho' (S level) ("," ++ newline_indent (S level)) true).
      destruct (json_printable o'); cbn [andb].
      2: { destruct Ho' as [text ->]. cbn [and_then]. eauto. }
      rewrite Ho'. cbn [and_then].
      destruct (forallb json_printable l).
      - rewrite (after_Complete _ _ _ IHl). f_equal. string_eq.
      - destruct IHl as [text IHl].
        rewrite (after_Broken _ _ _ _ IHl). eauto. }
    destruct (forallb json_printable lst).
    + rewrite (after_Complete _ _ _ Hrest). f_equal. string_eq.
    + destruct Hrest as [text Hrest].
      rewrite (after_Broken _ _ _ _ Hrest). eauto.
  - destruct dct as [| [k o] dct]; [reflexivity |].
    cbn [json_printable iterencode_chunks iterencode forallb snd].
    inversion IH as [| ? ? Ho Hl]; subst. clear IH. cbn [snd] in Ho.
    specialize (Ho (S level) ("" ++ encode_basestring k ++ ": ") false).
    destruct (json_printable o); cbn [andb].
    2: { destruct Ho as [text ->]. cbn [and_then after]. eauto. }
    rewrite Ho. cbn [and_then]. rewrite after_after.
    match goal with
    | |- if _ then after _ (?each _ _)
                   = Complete (_ ++ _ ++ _ ++ (_ ++ _ ++ _ ++ _ ++ ?txt _ _) ++ _)
         else _ =>
      assert (Hrest :
        if forallb (fun kv => json_printable (snd kv)) dct
        then each dct false
             = Complete (txt dct false ++ newline_indent level ++ "}")
        else exists text, each dct false = Broken text max_str_digits_error)
    end.
    { clear Ho. induction Hl as [| [k' o'] l Ho' _ IHl]; [reflexivity |].
      cbn [forallb snd] in Ho' |- *.
      specialize (Ho' (S level)
                    (("," ++ newline_indent (S level))
                     ++ encode_basestring k' ++ ": ") false).
      destruct (json_printable o'); cbn [andb].
      2: { destruct Ho' as [text ->]. cbn [and_then]. eauto. }
      rewrite Ho'. cbn [and_then].
      destruct (forallb (fun kv => json_printable (snd kv)) l).
      - rewrite (after_Complete _ _ _ IHl). f_equal. string_eq.
      - destruct IHl as [text IHl].
        rewrite (after_Broken _ _ _ _ IHl). eauto. }
    destruct (forallb (fun kv => json_printable (snd kv)) dct).
    + rewrite (after_Complete _ _ _ Hrest). f_equal. string_eq.
    + destruct Hrest as [text Hrest].
      rewrite (after_Broken _ _ _ _ Hrest). eauto.
Qed.

Lemma json_printable_num (x : num) :
  json_printable (json_of_num x) = printable x.
Proof. now destruct x. Qed.

Lemma json_printable_bracket (b : Bracket) :
  json_printable (json_of_bracket b) = bracket_printable b.
Proof.
  unfold json_of_bracket, bracket_printable.
  cbn [json_printable forallb snd]. rewrite json_printable_num.
  destruct (b_max b); [rewrite json_printable_num |];
    now rewrite ?andb_true_r.
Qed.

Lemma json_printable_brackets (bs : list Bracket) :
  forallb json_printable (map json_of_bracket bs)
  = forallb bracket_printable bs.
Proof.
  induction bs as [| b bs IH]; [reflexivity |].
  cbn [map forallb]. now rewrite json_printable_bracket, IH.
Qed.

Lemma json_printable_document (d : TaxDocument) :
  json_printable (json_of_document d) = document_printable d.
Proof.
  unfold json_of_document, document_printable.
  cbn [json_printable forallb snd]. rewrite json_printable_brackets.
  rewrite andb_true_r, andb_assoc. f_equal.
  induction (provincial d) as [| [k j] l IH]; [reflexivity |].
  cbn [map forallb fst snd json_of_jurisdiction json_printable].
  now rewrite json_printable_brackets, andb_true_r, IH.
Qed.

(** [json.dump] writes the whole text of a printable document, and breaks
    on any other. *)
Lemma json_dump_chunks_cases (d : TaxDocument) :
  if document_printable d
  then json_dump_chunks float_repr d = Complete (json_dump float_repr d)
  else exists text,
      json_dump_chunks float_repr d = Broken text max_str_digits_error.
Proof.
  rewrite <- json_printable_document.
  apply (iterencode_chunks_encodes (json_of_document d) 0%nat EmptyString
           false).
Qed.

Lemma json_dump_chunks_complete (d : TaxDocument) (text : string) :
  json_dump_chunks float_repr d = Complete text ->
  document_printable d = true /\ text = json_dump float_repr d.
Proof.
  pose proof (json_dump_chunks_cases d) as H.
  destruct (document_printable d).
  - rewrite H. now intros [= <-].
  - destruct H as [t ->]. discriminate.
Qed.

Lemma json_dump_chunks_broken (d : TaxDocument) (text msg : string) :
  json_dump_chunks float_repr d = Broken text msg ->
  document_printable d = false /\ msg = max_str_digits_error.
Proof.
  pose proof (json_dump_chunks_cases d) as H.
  destruct (document_printable d).
  - rewrite H. discriminate.
  - destruct H as [t ->]. now intros [= _ <-].
Qed.


(** *** A broken encoding stops short *)

Lemma str_int_nonempty (n : Z) : str_int n <> EmptyString.
Proof.
  unfold str_int, NilZero.string_of_int.
  destruct (Z.to_int n) as [d | d]; [| discriminate].
  unfold NilZero.string_of_uint. destruct d; discriminate.
Qed.

Lemma append_nonempty_l (a b : string) :
  a <> EmptyString -> (a ++ b)%string <> EmptyString.
Proof. destruct a; [congruence | discriminate]. Qed.

Lemma append_nonempty_r (a b : string) :
  b <> EmptyString -> (a ++ b)%string <> EmptyString.
Proof. destruct a; [trivial | discriminate]. Qed.

Lemma iterencode_chunks_complete (o : json) (level : nat) (buf : string)
    (held : bool) (text : string) :
  iterencode_chunks float_repr o level buf held = Complete text ->
  text = (buf ++ iterencode float_repr o level)%string.
Proof.
  pose proof (iterencode_chunks_encodes o level buf held) as H.
  destruct (json_printable o).
  - rewrite H. now intros [= <-].
  - destruct H as [t ->]. discriminate.
Qed.

Lemma after_Broken_inv (a : string) (e : encoded) (text msg : string) :
  after a e = Broken text msg ->
  exists t, e = Broken t msg /\ text = (a ++ t)%string.
Proof.
  destruct e as [t | t m]; cbn [after]; [discriminate |].
  intros [= <- <-]. eauto.
Qed.

Lemma and_then_Broken_inv (e rest : encoded) (text msg : string) :
  and_then e rest = Broken text msg ->
  e = Broken text msg \/
  exists t1 t2,
    e = Complete t1 /\ rest = Broken t2 msg /\ text = (t1 ++ t2)%string.
Proof.
  destruct e as [t1 | t1 m1]; cbn [and_then]; [| now left].
  intros H. apply after_Broken_inv in H. destruct H as (t2 & -> & ->).
  right. now exists t1, t2.
Qed.

(** What an encoding that breaks has written is the start of the whole
    text, and not all of it. *)
Lemma iterencode_chunks_stops_short (o : json) :
  forall level buf held text msg,
    iterencode_chunks float_repr o level buf held = Broken text msg ->
    exists rest,
      (buf ++ iterencode float_repr o level)%string = (text ++ rest)%string /\
      rest <> EmptyString.
Proof.
  induction o as [n | f | s | lst IH | dct IH] using json_induction;
    intros level buf held text msg.
  - cbn [iterencode_chunks iterencode].
    destruct (repr_int n) as [t | m]; [discriminate |].
    intros [= <- <-]. pose proof (str_int_nonempty n) as Hn.
    destruct held.
    + exists (buf ++ str_int n)%string.
      split; [reflexivity | now apply append_nonempty_r].
    + exists (str_int n). split; [reflexivity | exact Hn].
  - discriminate.
  - discriminate.
  - destruct lst as [| o lst]; [discriminate |].
    cbn [iterencode_chunks iterencode].
    inversion IH as [| ? ? Ho Hl]; subst. clear IH.
    intros H. apply after_Broken_inv in H. destruct H as (t & H & ->).
    match type of H with
    | and_then _ (?each _ _) = _ =>
      match goal with
      | |- exists rest,
            (_ ++ _ ++ _ ++ (_ ++ _ ++ ?txt _ _) ++ _)%string = _ /\ _ =>
        assert (Hrest : forall t2,
                   each lst false = Broken t2 msg ->
                   exists rest,
                     (txt lst false ++ newline_indent level ++ "]")%string
                     = (t2 ++ rest)%string /\
                     rest <> EmptyString)
      end
    end.
    { clear Ho H. induction Hl as [| o' l Ho' _ IHl]; intros t2 H2;
        [discriminate |].
      apply and_then_Broken_inv in H2.
      destruct H2 as [H2 | (t1 & t2' & H1 & H2 & ->)].
      - destruct (Ho' _ _ _ _ _ H2) as (rest1 & E1 & Hne).
        match goal with
        | |- exists rest, ((_ ++ _ ++ ?tx) ++ ?tl)%string = _ /\ _ =>
          exists (rest1 ++ tx ++ tl)%string
        end.
        split; [| apply append_nonempty_l; exact Hne].
        rewrite <- (string_app_assoc t2 rest1), <- E1. string_eq.
      - apply iterencode_chunks_complete in H1. subst t1.
        destruct (IHl _ H2) as (rest & E & Hne).
        exists rest. split; [| exact Hne].
        rewrite (string_app_assoc _ t2' rest), <- E. string_eq. }
    apply and_then_Broken_inv in H.
    destruct H as [H | (t1 & t2 & H1 & H2 & ->)].
    + destruct (Ho _ _ _ _ _ H) as (rest1 & E1 & Hne).
      match goal with
      | |- exists rest,
            (_ ++ _ ++ _ ++ (_ ++ _ ++ ?tx) ++ ?tl)%string = _ /\ _ =>
        exists (rest1 ++ tx ++ tl)%string
      end.
      split; [| apply append_nonempty_l; exact Hne].
      rewrite (string_app_assoc buf t), <- (string_app_assoc t rest1), <- E1.
      string_eq.
    + apply iterencode_chunks_complete in H1. subst t1.
      destruct (Hrest _ H2) as (rest & E & Hne).
      exists rest. split; [| exact Hne].
      rewrite (string_app_assoc buf), (string_app_assoc _ t2 rest), <- E.
      string_eq.
  - destruct dct as [| [k o] dct]; [discriminate |].
    cbn [iterencode_chunks iterencode].
    inversion IH as [| ? ? Ho Hl]; subst. clear IH. cbn [snd] in Ho.
    intros H. apply after_Broken_inv in H. destruct H as (t & H & ->).
    match type of H with
    | and_then _ (?each _ _) = _ =>
      match goal with
      | |- exists rest,
            (_ ++ _ ++ _ ++ (_ ++ _ ++ _ ++ _ ++ ?txt _ _) ++ _)%string = _
            /\ _ =>
        assert (Hrest : forall t2,
                   each dct false = Broken t2 msg ->
                   exists rest,
                     (txt dct false ++ newline_indent level ++ "}")%string
                     = (t2 ++ rest)%string /\
                     rest <> EmptyString)
      end
    end.
    { clear Ho H. induction Hl as [| [k' o'] l Ho' _ IHl]; intros t2 H2;
        [discriminate |].
      cbn [snd] in Ho'. apply and_then_Broken_inv in H2.
      destruct H2 as [H2 | (t1 & t2' & H1 & H2 & ->)].
      - destruct (Ho' _ _ _ _ _ H2) as (rest1 & E1 & Hne).
        match goal with
        | |- exists rest,
              ((_ ++ _ ++ _ ++ _ ++ ?tx) ++ ?tl)%string = _ /\ _ =>
          exists (rest1 ++ tx ++ tl)%string
        end.
        split; [| apply append_nonempty_l; exact Hne].
        rewrite <- (string_app_assoc t2 rest1), <- E1. string_eq.
      - apply iterencode_chunks_complete in H1. subst t1.
        destruct (IHl _ H2) as (rest & E & Hne).
        exists rest. split; [| exact Hne].
        rewrite (string_app_assoc _ t2' rest), <- E. string_eq. }
    apply and_then_Broken_inv in H.
    destruct H as [H | (t1 & t2 & H1 & H2 & ->)].
    + destruct (Ho _ _ _ _ _ H) as (rest1 & E1 & Hne).
      match goal with
      | |- exists rest,
            (_ ++ _ ++ _ ++ (_ ++ _ ++ _ ++ _ ++ ?tx) ++ ?tl)%string = _
            /\ _ =>
        exists (rest1 ++ tx ++ tl)%string
      end.
      split; [| apply append_nonempty_l; exact Hne].
      rewrite (string_app_assoc _ t), <- (string_app_assoc t rest1), <- E1.
      string_eq.
    + apply iterencode_chunks_complete in H1. subst t1.
      destruct (Hrest _ H2) as (rest & E & Hne).
      exists rest. split; [| exact Hne].
      rewrite (string_app_assoc (buf ++ _)), (string_app_assoc _ t2 rest),
        <- E.
      string_eq.
Qed.

(** A document that cannot be printed leaves the start of its text, and
    not all of it. *)
Lemma json_dump_chunks_stops_short (d : TaxDocument) (text msg : string) :
  json_dump_chunks float_repr d = Broken text msg ->
  exists rest,
    json_dump float_repr d = (text ++ rest)%string /\ rest <> EmptyString.
Proof.
  intros H.
  apply (iterencode_chunks_stops_short (json_of_document d) 0%nat
           EmptyString false text msg H).
Qed.

End Encoder.

Section Main.

Variable float_repr : float -> string.

Lemma bind_write_file {B} (path content : string) (k : unit -> IO B)
    (w : world) (lines : list string) :
  io_bind (write_file path content) k (log w lines)
  = k tt (written w path content lines).
Proof. reflexivity. Qed.

Lemma bind_print_written {B} (s : string) (k : unit -> IO B) (w : world)
    (path content : string) (lines : list string) :
  io_bind (print s) k (written w path content lines)
  = k tt (written w path content (lines ++ [s])).
Proof.
  unfold io_bind, print, written. cbn [stdout files clock].
  now rewrite <- app_assoc.
Qed.

Lemma print_written (s : string) (w : world) (path content : string)
    (lines : list string) :
  print s (written w path content lines)
  = (Done tt, written w path content (lines ++ [s])).
Proof.
  unfold print, written. cbn [stdout files clock].
  now rewrite <- app_assoc.
Qed.

Lemma bind_write_raise {B} (path content msg : string)
    (k : unit -> IO B) (w : world) (lines : list string) :
  io_bind (io_bind (write_file path content) (fun _ => lift (Raises msg))) k
    (log w lines)
  = (Uncaught msg, written w path content lines).
Proof. reflexivity. Qed.

(** A run of [main] with the package installed. With a document, what
    [json.dump] hands over is written to [output_file]: the run ends
    normally after a complete encoding, and with the uncaught exception
    after a broken one. Without a document the run leaves with status 1
    having only printed. *)
Lemma main_run (rates_2025 : rates_module) (w : world) :
  match document_of rates_2025 with
  | Some tax_data =>
    match json_dump_chunks float_repr tax_data with
    | Complete text =>
      exists w',
        main float_repr (Some rates_2025) w = (Done tt, w') /\
        writes output_file text w w'
    | Broken text msg =>
      exists w',
        main float_repr (Some rates_2025) w = (Uncaught msg, w') /\
        writes output_file text w w'
    end
  | None =>
    exists w',
      main float_repr (Some rates_2025) w = (SystemExit 1, w') /\
      prints w w'
  end.
Proof.
  unfold main. rewrite !bind_print.
  match goal with
  | |- context [io_bind (generate_tax_data _) _ ?w0] =>
    destruct (generate_tax_data_run rates_2025 w0) as (w1 & [l1 Hw1] & Hrun)
  end.
  destruct (document_of rates_2025) as [tax_data |] eqn:Hdoc.
  - rewrite (bind_done _ _ _ _ _ Hrun). subst w1.
    rewrite (document_of_year _ _ Hdoc), output_file_name.
    rewrite !bind_print, !log_log.
    destruct (json_dump_chunks float_repr tax_data) as [text | text msg].
    + rewrite bind_write_file.
      rewrite !bind_print_written, print_written.
      eexists. split; [reflexivity |]. now eexists.
    + rewrite bind_write_raise.
      eexists. split; [reflexivity |]. now eexists.
  - rewrite (bind_exit _ _ _ _ _ Hrun).
    eexists. split; [reflexivity |].
    subst w1. rewrite !log_log. auto with runs.
Qed.


(** A run over a document with an int too long to print ends with the
    uncaught [ValueError], [output_file] left with the text before it. *)
Lemma main_run_unprintable (rates_2025 : rates_module)
    (tax_data : TaxDocument) (w : world) :
  document_of rates_2025 = Some tax_data ->
  document_printable tax_data = false ->
  exists text w',
    main float_repr (Some rates_2025) w
    = (Uncaught max_str_digits_error, w') /\
    json_dump_chunks float_repr tax_data
    = Broken text max_str_digits_error /\
    writes output_file text w w'.
Proof.
  intros Hdoc Hp. pose proof (main_run rates_2025 w) as Hrun.
  pose proof (json_dump_chunks_cases float_repr tax_data) as Hdump.
  rewrite Hdoc in Hrun. rewrite Hp in Hdump. destruct Hdump as [text Hdump].
  rewrite Hdump in Hrun. destruct Hrun as (w' & Hmain & Hw').
  now exists text, w'.
Qed.

(** A run of [main] without the package. *)
Lemma main_no_package (w : world) :
  exists w',
    main float_repr None w = (SystemExit 1, w') /\ prints w w'.
Proof.
  unfold main. rewrite !bind_print.
  match goal with
  | |- context [io_bind (generate_tax_data _) _ ?w0] =>
    destruct (generate_tax_data_no_package w0) as (w1 & [l1 Hw1] & Hrun)
  end.
  rewrite (bind_exit _ _ _ _ _ Hrun).
  eexists. split; [reflexivity |].
  subst w1. rewrite !log_log. auto with runs.
Qed.

(** A run of [main] that ends normally had a printable document and wrote
    its text. *)
Lemma main_done (canatax : option rates_module) (w w' : world) :
  main float_repr canatax w = (Done tt, w') ->
  exists rates_2025 tax_data,
    canatax = Some rates_2025 /\
    document_of rates_2025 = Some tax_data /\
    document_printable tax_data = true /\
    writes output_file (json_dump float_repr tax_data) w w'.
Proof.
  intros Hmain. destruct canatax as [rates |].
  - pose proof (main_run rates w) as Hrun.
    destruct (document_of rates) as [d |] eqn:Hdoc.
    + destruct (json_dump_chunks float_repr d) as [text | text msg] eqn:Hdump;
        destruct Hrun as (w1 & Hrun & Hw1); rewrite Hrun in Hmain;
        [| discriminate].
      destruct (json_dump_chunks_complete _ _ _ Hdump) as [Hp ->].
      injection Hmain as <-. now exists rates, d.
    + destruct Hrun as (w1 & Hrun & _). rewrite Hrun in Hmain. discriminate.
  - destruct (main_no_package w) as (w1 & Hrun & _).
    rewrite Hrun in Hmain. discriminate.
Qed.

End Main.

(** ** Which provinces reach the document *)

Lemma dict_get_None_keys {V} (d : dict V) (k : string) :
  dict_get d k = None <-> ~ In k (dict_keys d).
Proof.
  induction d as [| [k' v] d' IH]; simpl.
  - tauto.
  - destruct (String.eqb k' k) eqn:E.
    + apply String.eqb_eq in E. split; [discriminate | tauto].
    + apply String.eqb_neq in E. rewrite IH. tauto.
Qed.

Lemma dict_keys_set_new {V} (d : dict V) (k : string) (v : V) :
  ~ In k (dict_keys d) -> dict_keys (dict_set d k v) = (dict_keys d ++ [k])%list.
Proof.
  induction d as [| [k' v'] d' IH]; simpl; intros H.
  - reflexivity.
  - destruct (String.eqb k' k) eqn:E.
    + apply String.eqb_eq in E. tauto.
    + simpl. f_equal. apply IH. tauto.
Qed.

(** The loop inserts the fetched provinces in the order it visits them. *)
Lemma assemble_provincial_keys (tax_rate_classes : dict rate_class)
    (codes : list string) :
  forall acc,
    NoDup codes ->
    (forall c, In c codes -> ~ In c (dict_keys acc)) ->
    dict_keys (assemble_provincial tax_rate_classes codes acc)
    = (dict_keys acc ++ filter (fetched tax_rate_classes) codes)%list.
Proof.
  induction codes as [| code codes' IH]; intros acc Hnd Hfresh; simpl.
  - now rewrite app_nil_r.
  - inversion Hnd as [| ? ? Hnotin Hnd']; subst.
    unfold fetched at 1.
    destruct (provincial_data tax_rate_classes code) as [data |].
    + rewrite IH; auto.
      * rewrite dict_keys_set_new by (apply Hfresh; now left).
        now rewrite <- app_assoc.
      * intros c Hc. rewrite dict_keys_set_new by (apply Hfresh; now left).
        rewrite in_app_iff. simpl. intros [Hin | [Heq | []]].
        -- apply (Hfresh c); [now right | exact Hin].
        -- subst. contradiction.
    + apply IH; auto. intros c Hc. apply Hfresh. now right.
Qed.

Lemma PROVINCE_NAMES_NoDup : NoDup (dict_keys PROVINCE_NAMES).
Proof.
  assert (H : nodup string_dec (dict_keys PROVINCE_NAMES)
              = dict_keys PROVINCE_NAMES) by reflexivity.
  rewrite <- H. apply NoDup_nodup.
Qed.

(** The provincial map of a run holds exactly the fetched provinces, in
    the order of [PROVINCE_NAMES]. *)
Lemma document_of_provincial (rates_2025 : rates_module)
    (tax_data : TaxDocument) :
  document_of rates_2025 = Some tax_data ->
  dict_keys (provincial tax_data)
  = filter (fetched (tax_rate_classes_of rates_2025))
      (dict_keys PROVINCE_NAMES).
Proof.
  unfold document_of.
  pose proof (assemble_provincial_keys (tax_rate_classes_of rates_2025)
                (dict_keys PROVINCE_NAMES) [] PROVINCE_NAMES_NoDup
                (fun c _ Hin => Hin)) as Hkeys.
  change (dict_keys [] ++ ?l)%list with l in Hkeys.
  revert Hkeys.
  generalize (assemble_provincial (tax_rate_classes_of rates_2025)
                (dict_keys PROVINCE_NAMES) []).
  intros prov Hkeys.
  destruct (federal_data (tax_rate_classes_of rates_2025)); [| discriminate].
  intros [= <-]. exact Hkeys.
Qed.



(** The federal fetch calls the federal class and normalises its
    brackets. *)
Lemma fetch_federal_class (rates_2025 : rates_module) :
  fetch_federal (tax_rate_classes_of rates_2025)
  = bind (FederalIncomeTaxRate rates_2025) format_brackets.
Proof. reflexivity. Qed.


(** The federal class raising leaves no document. *)
Lemma raises_no_document (rates_2025 : rates_module) (msg : string) :
  FederalIncomeTaxRate rates_2025 = Raises msg ->
  document_of rates_2025 = None.
Proof.
  intros Hfed. unfold document_of, federal_data.
  rewrite fetch_federal_class, Hfed. reflexivity.
Qed.



Lemma dict_get_Some_keys {V} (d : dict V) (k : string) (v : V) :
  dict_get d k = Some v -> In k (dict_keys d).
Proof.
  intros H. destruct (in_dec string_dec k (dict_keys d)) as [Hin | Hin];
    [exact Hin |].
  apply dict_get_None_keys in Hin. congruence.
Qed.

(** Every code with a class name has a full name. *)
Lemma class_codes_named (province_code class_name : string) :
  dict_get PROVINCE_TO_CLASS province_code = Some class_name ->
  exists name, dict_get PROVINCE_NAMES province_code = Some name.
Proof.
  intros H. apply dict_get_Some_keys in H.
  change (dict_keys PROVINCE_TO_CLASS) with (dict_keys PROVINCE_NAMES) in H.
  destruct (dict_get PROVINCE_NAMES province_code) as [name |] eqn:E;
    [eauto |].
  apply dict_get_None_keys in E. contradiction.
Qed.

(** A province whose class returns an object with brackets that normalise
    is fetched, under its full name. *)
Lemma provincial_data_fetches (rates_2025 : rates_module) (code : string)
    (obj : tax_rate_obj) (formatted : list Bracket) :
  class_of rates_2025 code = Some (Returns obj) ->
  format_brackets obj = Returns formatted ->
  exists name,
    dict_get PROVINCE_NAMES code = Some name /\
    provincial_data (tax_rate_classes_of rates_2025) code
    = Some (mkJurisdiction name formatted).
Proof.
  unfold class_of, provincial_data. intros Hcls Hfmt.
  destruct (dict_get PROVINCE_TO_CLASS code) as [cn |] eqn:Hcn;
    [| discriminate].
  destruct (class_codes_named _ _ Hcn) as [name Hname]. exists name.
  split; [exact Hname |].
  assert (Hfalsy : falsy (Some cn) = false).
  { cbn [falsy]. destruct (String.eqb cn "") eqn:E; [| reflexivity].
    apply String.eqb_eq in E. subst cn. discriminate. }
  rewrite Hfalsy. unfold dict_contains, fetch_provincial, dict_getitem.
  rewrite Hcls. cbn [negb orb bind]. rewrite Hfmt. cbn [bind].
  now rewrite Hname.
Qed.

(** ** Documents that can be printed *)



Lemma printable_year : printable (PyInt 2025) = true.
Proof. vm_compute. reflexivity. Qed.






(** ** The claims about whole runs *)

Section Runs.

Variable float_repr : float -> string.

(** C2: when the provider raises for the federal class, the run leaves
    with status 1 and the files are what they were; and whenever a run
    leaves through [sys.exit], no file was written, the write coming
    after the document is assembled. *)
Theorem federal_failure_writes_nothing (rates_2025 : rates_module)
    (msg : string) (w : world) :
  FederalIncomeTaxRate rates_2025 = Raises msg ->
  (exists w',
      main float_repr (Some rates_2025) w = (SystemExit 1, w') /\
      exit_status (@SystemExit unit 1) <> 0 /\
      files w' = files w) /\
  (forall canatax w0 code w0',
      main float_repr canatax w0 = (SystemExit code, w0') ->
      code <> 0 /\ files w0' = files w0).
Proof.
  intros Hfed. split.
  - pose proof (main_run float_repr rates_2025 w) as Hrun.
    rewrite (raises_no_document _ _ Hfed) in Hrun.
    destruct Hrun as (w' & Hmain & Hw').
    exists w'. split; [exact Hmain |]. split; [discriminate |].
    now apply prints_files.
  - intros [rates |] w0 code w0' Hmain.
    + pose proof (main_run float_repr rates w0) as Hrun.
      destruct (document_of rates) as [d |];
        [destruct (json_dump_chunks float_repr d) |];
        destruct Hrun as (w1 & Hrun & Hw1); rewrite Hrun in Hmain;
        inversion Hmain; subst.
      split; [discriminate | now apply prints_files].
    + destruct (main_no_package float_repr w0) as (w1 & Hrun & Hw1).
      rewrite Hrun in Hmain. inversion Hmain; subst.
      split; [discriminate | now apply prints_files].
Qed.


(** C7: the document a run assembles has year 2025, whatever the world
    (clock included) it runs in, and the file a run writes is
    [tax_brackets_2025.json], named after that year. *)
Theorem year_is_2025 (canatax : option rates_module) (w : world) :
  (forall tax_data w',
      generate_tax_data canatax w = (Done tax_data, w') ->
      year tax_data = 2025) /\
  (forall w',
      main float_repr canatax w = (Done tt, w') ->
      exists tax_data,
        year tax_data = 2025 /\
        "tax_brackets_" ++ str_int (year tax_data) ++ ".json"
        = "tax_brackets_2025.json" /\
        writes "tax_brackets_2025.json" (json_dump float_repr tax_data)
          w w').
Proof.
  split.
  - intros tax_data w' Hgen. destruct canatax as [rates |].
    + destruct (generate_tax_data_run rates w) as (w1 & _ & Hrun).
      rewrite Hrun in Hgen.
      destruct (document_of rates) as [d |] eqn:Hdoc; [| discriminate].
      inversion Hgen; subst. now apply (document_of_year rates).
    + destruct (generate_tax_data_no_package w) as (w1 & _ & Hrun).
      rewrite Hrun in Hgen. discriminate.
  - intros w' Hmain.
    destruct (main_done float_repr _ _ _ Hmain)
      as (rates & d & _ & Hdoc & _ & Hw').
    exists d. rewrite (document_of_year _ _ Hdoc). auto.
Qed.

(** C8: the outcome of a run and the content of the file it writes are
    functions of the provider data alone: two runs from any two worlds
    end alike and leave the same bytes in [output_file], a second run
    after the first leaves them unchanged, and the provinces appear in
    the order of the table. *)
Theorem output_is_deterministic (canatax : option rates_module)
    (w1 w2 : world) :
  let r1 := main float_repr canatax w1 in
  let r2 := main float_repr canatax w2 in
  let r3 := main float_repr canatax (snd r1) in
  fst r1 = fst r2 /\
  (fst r1 = Done tt ->
   exists rates_2025 tax_data,
     canatax = Some rates_2025 /\
     document_of rates_2025 = Some tax_data /\
     files (snd r1) output_file = Some (json_dump float_repr tax_data) /\
     files (snd r2) output_file = Some (json_dump float_repr tax_data) /\
     dict_keys (provincial tax_data)
     = filter (fetched (tax_rate_classes_of rates_2025))
         (dict_keys PROVINCE_NAMES)) /\
  files (snd r3) output_file = files (snd r1) output_file.
Proof.
  cbv zeta. destruct canatax as [rates |].
  - pose proof (main_run float_repr rates w1) as H1.
    pose proof (main_run float_repr rates w2) as H2.
    destruct (document_of rates) as [d |] eqn:Hdoc;
      [destruct (json_dump_chunks float_repr d) as [text | text msg]
         eqn:Hdump |].
    + destruct (json_dump_chunks_complete _ _ _ Hdump) as [_ ->].
      destruct H1 as (w1' & E1 & [l1 W1]), H2 as (w2' & E2 & [l2 W2]).
      rewrite E1, E2. cbn [fst snd].
      pose proof (main_run float_repr rates w1') as H3.
      rewrite Hdoc, Hdump in H3.
      destruct H3 as (w3' & E3 & [l3 W3]). rewrite E3. cbn [fst snd].
      subst w1' w2' w3'. unfold written. cbn [files].
      rewrite String.eqb_refl.
      split; [reflexivity |]. split; [| reflexivity].
      intros _. exists rates, d.
      split; [reflexivity |]. split; [exact Hdoc |].
      split; [reflexivity |]. split; [reflexivity |].
      now apply document_of_provincial.
    + destruct H1 as (w1' & E1 & [l1 W1]), H2 as (w2' & E2 & [l2 W2]).
      rewrite E1, E2. cbn [fst snd].
      pose proof (main_run float_repr rates w1') as H3.
      rewrite Hdoc, Hdump in H3.
      destruct H3 as (w3' & E3 & [l3 W3]). rewrite E3. cbn [fst snd].
      subst w1' w2' w3'. unfold written. cbn [files].
      rewrite String.eqb_refl.
      split; [reflexivity |]. split; [discriminate | reflexivity].
    + destruct H1 as (w1' & E1 & P1), H2 as (w2' & E2 & P2).
      rewrite E1, E2. cbn [fst snd].
      pose proof (main_run float_repr rates w1') as H3. rewrite Hdoc in H3.
      destruct H3 as (w3' & E3 & P3). rewrite E3. cbn [fst snd].
      split; [reflexivity |]. split; [discriminate |].
      now rewrite (prints_files _ _ P3).
  - destruct (main_no_package float_repr w1) as (w1' & E1 & P1).
    destruct (main_no_package float_repr w2) as (w2' & E2 & P2).
    rewrite E1, E2. cbn [fst snd].
    destruct (main_no_package float_repr w1') as (w3' & E3 & P3).
    rewrite E3. cbn [fst snd].
    split; [reflexivity |]. split; [discriminate |].
    now rewrite (prints_files _ _ P3).
Qed.

End Runs.

(** C10: every code of the thirteen-entry table [PROVINCE_NAMES] has a
    class name in [PROVINCE_TO_CLASS], not empty and a key of
    [tax_rate_classes]; so [get_provincial_brackets] goes past the
    "No tax rate class found" branch and returns [None] only when the
    fetch itself raises. *)
Theorem province_classes_registered (rates_2025 : rates_module)
    (province_code : string) :
  In province_code (dict_keys PROVINCE_NAMES) ->
  List.length PROVINCE_NAMES = 13%nat /\
  exists class_name,
    dict_get PROVINCE_TO_CLASS province_code = Some class_name /\
    falsy (Some class_name) = false /\
    dict_contains (tax_rate_classes_of rates_2025) class_name = true /\
    (forall w,
        get_provincial_brackets (tax_rate_classes_of rates_2025)
          province_code w
        = match fetch_provincial (tax_rate_classes_of rates_2025)
                  province_code class_name with
          | Returns data => ret (Some data) w
          | Raises e =>
            io_bind
              (print ("Error fetching brackets for " ++ province_code
                      ++ ": " ++ e))
              (fun _ => ret None) w
          end) /\
    (provincial_data (tax_rate_classes_of rates_2025) province_code = None ->
     exists e,
       fetch_provincial (tax_rate_classes_of rates_2025)
         province_code class_name = Raises e).
Proof.
  simpl. intros H. split; [reflexivity |].
  repeat (destruct H as [H | H];
          [subst province_code; eexists;
           split; [reflexivity |];
           split; [reflexivity |];
           split; [reflexivity |];
           split;
           [ intros w; unfold get_provincial_brackets; simpl;
             match goal with
             | |- context [fetch_provincial ?t ?c ?n] =>
               destruct (fetch_provincial t c n); reflexivity
             end
           | unfold provincial_data; simpl;
             match goal with
             | |- context [fetch_provincial ?t ?c ?n] =>
               destruct (fetch_provincial t c n); [discriminate | eauto]
             end ] |]).
  contradiction.
Qed.

(** ** The claims at the sample inputs *)

Lemma federal_failure_writes_nothing_witness :
  FederalIncomeTaxRate rates_federal_down = Raises "no data" /\
  exists w',
    main repr_example (Some rates_federal_down) world_stale
    = (SystemExit 1, w') /\
    exit_status (@SystemExit unit 1) <> 0 /\
    files w' = files world_stale.
Proof.
  split; [reflexivity |].
  apply (federal_failure_writes_nothing repr_example rates_federal_down
           "no data" world_stale).
  reflexivity.
Defined.





Lemma year_is_2025_witness :
  exists tax_data,
    year tax_data = 2025 /\
    "tax_brackets_" ++ str_int (year tax_data) ++ ".json"
    = "tax_brackets_2025.json" /\
    writes "tax_brackets_2025.json" (json_dump repr_example tax_data)
      world_stale
      (snd (main repr_example (Some rates_example) world_stale)).
Proof.
  apply (proj2 (year_is_2025 repr_example (Some rates_example) world_stale)).
  vm_compute. reflexivity.
Defined.

Lemma output_is_deterministic_witness :
  fst (main repr_example (Some rates_example) world_example) = Done tt /\
  let r1 := main repr_example (Some rates_example) world_example in
  let r2 := main repr_example (Some rates_example) world_stale in
  let r3 := main repr_example (Some rates_example) (snd r1) in
  fst r1 = fst r2 /\
  (fst r1 = Done tt ->
   exists rates_2025 tax_data,
     Some rates_example = Some rates_2025 /\
     document_of rates_2025 = Some tax_data /\
     files (snd r1) output_file = Some (json_dump repr_example tax_data) /\
     files (snd r2) output_file = Some (json_dump repr_example tax_data) /\
     dict_keys (provincial tax_data)
     = filter (fetched (tax_rate_classes_of rates_2025))
         (dict_keys PROVINCE_NAMES)) /\
  files (snd r3) output_file = files (snd r1) output_file.
Proof.
  split; [vm_compute; reflexivity |].
  apply (output_is_deterministic repr_example (Some rates_example)
           world_example world_stale).
Defined.

Lemma province_classes_registered_witness :
  In "QC" (dict_keys PROVINCE_NAMES) /\
  exists class_name,
    dict_get PROVINCE_TO_CLASS "QC" = Some class_name /\
    dict_contains (tax_rate_classes_of rates_example) class_name = true.
Proof.
  assert (H : In "QC" (dict_keys PROVINCE_NAMES)) by (simpl; tauto).
  split; [exact H |].
  destruct (province_classes_registered rates_example "QC" H)
    as (_ & class_name & Hget & _ & Hin & _).
  exists class_name. split; [exact Hget | exact Hin].
Defined.

(** * Further properties of the code *)

(** ** More on [format_brackets] *)

(** Dividing ints raises nothing but the overflow, unless by zero. *)
Lemma int_true_divide_raises (a b : Z) (msg : string) :
  b <> 0 ->
  int_true_divide a b = Raises msg ->
  msg = "integer division result too large for a float".
Proof.
  unfold int_true_divide. intros Hb H.
  destruct b; [congruence | |]; destruct a; try discriminate;
    match type of H with
    | context [SFdiv_core_binary ?p ?m ?x ?y ?z ?t] =>
      destruct (SFdiv_core_binary p m x y z t) as [[q e'] l]
    end;
    match type of H with
    | context [binary_round_aux ?p ?m ?x ?y ?z ?t] =>
      destruct (binary_round_aux p m x y z t)
    end; congruence.
Qed.

(** The index [i - 1] the loop reads is always inside the list. *)
Lemma format_loop_raises (bs rest : list (num * num)) :
  forall pre acc msg,
    bs = (pre ++ rest)%list ->
    format_loop bs (List.length pre) rest acc = Raises msg ->
    msg = "integer division result too large for a float" /\
    exists n u, In (PyInt n, u) rest /\ divisible (PyInt n) = false.
Proof.
  induction rest as [| [rate_pct max_val] rest' IH]; intros pre acc msg Hbs H.
  - discriminate.
  - simpl in H. unfold format_one in H.
    assert (Hmin : exists min_val,
               (if Nat.eqb (List.length pre) 0 then Returns (PyInt 0)
                else index_upper bs (List.length pre - 1)) = Returns min_val).
    { destruct pre as [| p0 pre'] using rev_ind; simpl; [eauto |].
      rewrite length_app, Nat.add_comm. simpl. rewrite Nat.sub_0_r.
      unfold index_upper. rewrite Hbs, <- app_assoc.
      rewrite nth_error_app2 by lia. rewrite Nat.sub_diag. simpl. eauto. }
    destruct Hmin as [min_val Hmin]. rewrite Hmin in H. cbn [bind] in H.
    destruct (truediv_100 rate_pct) as [r | e] eqn:Hr; cbn [bind] in H.
    + specialize (IH (pre ++ [(rate_pct, max_val)])%list).
      rewrite length_app, Nat.add_comm in IH. simpl in IH.
      destruct (IH _ _ (eq_trans Hbs (app_assoc pre [_] rest')) H)
        as (Hmsg & n & u & Hin & Hn).
      split; [exact Hmsg |]. exists n, u. split; [now right | exact Hn].
    + injection H as <-. destruct rate_pct as [n | f]; [| discriminate].
      split.
      * apply (int_true_divide_raises n 100); [discriminate | exact Hr].
      * exists n, max_val. split; [now left |].
        unfold divisible. now rewrite Hr.
Qed.

(** X1: [format_brackets] either returns or raises the [OverflowError] of
    the division, and then some int rate of the input does not divide; the
    lookup [brackets[i-1]] never goes out of range, and float rates never
    make it raise. *)
Theorem format_brackets_raises_only_overflow (obj : tax_rate_obj)
    (msg : string) :
  format_brackets obj = Raises msg ->
  msg = "integer division result too large for a float" /\
  exists n u, In (PyInt n, u) (brackets obj) /\ divisible (PyInt n) = false.
Proof.
  unfold format_brackets. intros H.
  apply (format_loop_raises (brackets obj) (brackets obj) [] [] msg eq_refl H).
Qed.

Lemma format_brackets_raises_only_overflow_witness :
  format_brackets overflow_example
  = Raises "integer division result too large for a float" /\
  "integer division result too large for a float"
  = "integer division result too large for a float" /\
  exists n u,
    In (PyInt n, u) (brackets overflow_example) /\
    divisible (PyInt n) = false.
Proof.
  split; [vm_compute; reflexivity |].
  apply (format_brackets_raises_only_overflow overflow_example).
  vm_compute. reflexivity.
Defined.

(** X2: for [i > 0] the ["min"] of bracket [i] is the raw upper bound of
    pair [i - 1], and it equals the ["max"] of bracket [i - 1] under
    Python's [==] exactly when that upper bound is neither the infinity
    sentinel nor a NaN. *)
Theorem format_brackets_min_is_previous_bound (obj : tax_rate_obj)
    (out : list Bracket) (j : nat) (q : num * num) (b b' : Bracket) :
  format_brackets obj = Returns out ->
  nth_error (brackets obj) j = Some q ->
  nth_error out j = Some b' ->
  nth_error out (S j) = Some b ->
  b_min b = snd q /\
  (eq_max (b_min b) (b_max b') = true <->
   Py.eq (snd q) Py.inf = false /\ Py.eq (snd q) (snd q) = true).
Proof.
  intros Hout Hq Hb' Hb.
  destruct (format_brackets_nth obj out Hout) as [Hlen Hnth].
  pose proof (nth_error_length _ _ _ Hb) as Hi. rewrite Hlen in Hi.
  destruct (nth_error_in_range _ _ Hi) as [p Hp].
  destruct (Hnth _ _ Hp) as (c & Hc & Hfc).
  destruct (Hnth _ _ Hq) as (c' & Hc' & Hfc').
  assert (c = b) by congruence. assert (c' = b') by congruence. subst c c'.
  apply format_one_inv in Hfc, Hfc'.
  destruct Hfc as (_ & _ & _ & Hmin). destruct Hfc' as (_ & Hmax & _).
  rewrite (Hmin j q eq_refl Hq), Hmax. split; [reflexivity |].
  destruct (Py.eq (snd q) Py.inf); simpl.
  - split; [discriminate | intros [H _]; discriminate].
  - tauto.
Qed.

Lemma format_brackets_min_is_previous_bound_witness :
  format_brackets tied_example = Returns tied_formatted /\
  b_min (nth 1 tied_formatted (mkBracket (PyInt 0) (MaxStr "") 0)) = Py.inf /\
  (eq_max (b_min (nth 1 tied_formatted (mkBracket (PyInt 0) (MaxStr "") 0)))
     (b_max (nth 0 tied_formatted (mkBracket (PyInt 0) (MaxStr "") 0)))
   = true <->
   Py.eq Py.inf Py.inf = false /\ Py.eq Py.inf Py.inf = true).
Proof.
  split; [vm_compute; reflexivity |].
  apply (format_brackets_min_is_previous_bound tied_example tied_formatted
           0%nat (PyInt 15, Py.inf));
    vm_compute; reflexivity.
Defined.

(** A turn of the loop reads the list only at index [i - 1]. *)
Lemma format_one_app (bs ys : list (num * num)) (i : nat)
    (rate_pct max_val : num) :
  (i <= List.length bs)%nat ->
  format_one (bs ++ ys) i rate_pct max_val = format_one bs i rate_pct max_val.
Proof.
  intros Hi. unfold format_one. destruct i as [| j]; [reflexivity |].
  cbn [Nat.eqb]. unfold index_upper.
  rewrite nth_error_app1 by lia. reflexivity.
Qed.

Lemma format_loop_app_list (bs ys rest : list (num * num)) :
  forall i acc,
    (i + List.length rest <= List.length bs)%nat ->
    format_loop (bs ++ ys) i rest acc = format_loop bs i rest acc.
Proof.
  induction rest as [| [rate_pct max_val] rest' IH]; intros i acc Hi.
  - reflexivity.
  - cbn [format_loop]. cbn [List.length] in Hi.
    rewrite format_one_app by lia.
    destruct (format_one bs i rate_pct max_val) as [b | e]; cbn [bind];
      [| reflexivity].
    apply IH. lia.
Qed.

(** Visiting [r1 ++ r2] is visiting [r1], then [r2]. *)
Lemma format_loop_app (bs r1 r2 : list (num * num)) :
  forall i acc,
    format_loop bs i (r1 ++ r2) acc
    = bind (format_loop bs i r1 acc)
        (fun acc' => format_loop bs (i + List.length r1) r2 acc').
Proof.
  induction r1 as [| [rate_pct max_val] r1' IH]; intros i acc.
  - cbn [app format_loop bind List.length]. now rewrite Nat.add_0_r.
  - cbn [app format_loop List.length].
    destruct (format_one bs i rate_pct max_val) as [b | e]; cbn [bind];
      [| reflexivity].
    rewrite IH. now rewrite Nat.add_succ_r.
Qed.

(** X3: each output bracket depends only on its own pair and the pair
    before it: when a list of pairs is normalised, every prefix of it is
    normalised to the matching prefix of the output. *)
Theorem format_brackets_prefix (xs ys : list (num * num))
    (out : list Bracket) :
  format_brackets (mkRateObj (xs ++ ys)) = Returns out ->
  format_brackets (mkRateObj xs) = Returns (firstn (List.length xs) out).
Proof.
  unfold format_brackets. cbn [brackets]. intros H.
  rewrite format_loop_app in H.
  destruct (format_loop (xs ++ ys) 0 xs []) as [out1 | e] eqn:E1;
    cbn [bind] in H; [| discriminate].
  destruct (format_loop_returns _ _ _ _ _ H) as (out2 & Hout & _ & _).
  destruct (format_loop_returns _ _ _ _ _ E1) as (out1' & Hout1 & Hlen1 & _).
  cbn [app] in Hout1. subst out1' out.
  rewrite <- Hlen1, firstn_app, Nat.sub_diag, firstn_all. cbn [firstn].
  rewrite app_nil_r, <- E1. symmetry.
  apply format_loop_app_list. cbn [Nat.add]. lia.
Qed.

Lemma format_brackets_prefix_witness :
  format_brackets (mkRateObj ([(PyInt 15, PyInt 57375)]
                              ++ [(PyFloat 20.5, Py.inf)]))
  = Returns federal_formatted /\
  format_brackets (mkRateObj [(PyInt 15, PyInt 57375)])
  = Returns (firstn 1 federal_formatted).
Proof.
  split; [vm_compute; reflexivity |].
  apply (format_brackets_prefix [(PyInt 15, PyInt 57375)]
           [(PyFloat 20.5, Py.inf)] federal_formatted).
  vm_compute. reflexivity.
Defined.

(** ** More on the fetchers *)

Lemma log_nil (w : world) : log w [] = w.
Proof. unfold log. rewrite app_nil_r. now destruct w. Qed.

(** No class name of the table is empty. *)
Lemma class_names_truthy (province_code class_name : string) :
  dict_get PROVINCE_TO_CLASS province_code = Some class_name ->
  falsy (Some class_name) = false.
Proof.
  intros H. cbn [falsy].
  destruct (String.eqb class_name "") eqn:E; [| reflexivity].
  apply String.eqb_eq in E. subst class_name. exfalso.
  cbn [dict_get PROVINCE_TO_CLASS] in H.
  repeat match type of H with
         | context [String.eqb ?a province_code] =>
           destruct (String.eqb a province_code); [discriminate |]
         end.
  discriminate.
Qed.

(** X4: when [get_provincial_brackets] returns data for a code, the code
    is in [PROVINCE_TO_CLASS], its class is in the table and returned an
    object, the brackets of the data are the normalised brackets of that
    object, the name is the [PROVINCE_NAMES] entry (the code is never used
    in its place), and the call printed nothing. Conversely a code whose
    class returns an object with brackets that normalise gives that data,
    whatever the other classes do. *)
Theorem get_provincial_brackets_data (tax_rate_classes : dict rate_class)
    (province_code : string) (w : world) :
  (forall data w',
      get_provincial_brackets tax_rate_classes province_code w
      = (Done (Some data), w') ->
      w' = w /\
      exists class_name obj,
        dict_get PROVINCE_TO_CLASS province_code = Some class_name /\
        dict_get tax_rate_classes class_name = Some (Returns obj) /\
        format_brackets obj = Returns (j_brackets data) /\
        dict_get PROVINCE_NAMES province_code = Some (j_name data)) /\
  (forall class_name obj formatted,
      dict_get PROVINCE_TO_CLASS province_code = Some class_name ->
      dict_get tax_rate_classes class_name = Some (Returns obj) ->
      format_brackets obj = Returns formatted ->
      exists name,
        dict_get PROVINCE_NAMES province_code = Some name /\
        get_provincial_brackets tax_rate_classes province_code w
        = (Done (Some (mkJurisdiction name formatted)), w)).
Proof.
  split.
  - intros data w'. unfold get_provincial_brackets.
    destruct (dict_get PROVINCE_TO_CLASS province_code) as [cn |] eqn:Hcn;
      [| rewrite bind_print; discriminate].
    destruct (falsy (Some cn) || negb (dict_contains tax_rate_classes cn));
      [rewrite bind_print; discriminate |].
    destruct (fetch_provincial tax_rate_classes province_code cn)
      as [data' | e] eqn:Hfetch; [| rewrite bind_print; discriminate].
    unfold ret. intros [= -> <-]. split; [reflexivity |].
    unfold fetch_provincial, dict_getitem in Hfetch.
    destruct (dict_get tax_rate_classes cn) as [[obj | e] |] eqn:Hcls;
      cbn [bind] in Hfetch; try discriminate.
    destruct (format_brackets obj) as [formatted | e] eqn:Hfmt;
      cbn [bind] in Hfetch; [| discriminate].
    destruct (class_codes_named _ _ Hcn) as [name Hname].
    rewrite Hname in Hfetch. injection Hfetch as <-.
    exists cn, obj. cbn [j_name j_brackets]. auto.
  - intros cn obj formatted Hcn Hcls Hfmt.
    destruct (class_codes_named _ _ Hcn) as [name Hname].
    exists name. split; [exact Hname |].
    unfold get_provincial_brackets. rewrite Hcn.
    rewrite (class_names_truthy _ _ Hcn).
    unfold dict_contains, fetch_provincial, dict_getitem.
    rewrite Hcls. cbn [negb orb bind]. rewrite Hfmt. cbn [bind].
    now rewrite Hname.
Qed.

Lemma get_provincial_brackets_data_witness :
  exists name,
    dict_get PROVINCE_NAMES "ON" = Some name /\
    get_provincial_brackets (tax_rate_classes_of rates_quebec_down) "ON"
      world_example
    = (Done (Some (mkJurisdiction name federal_formatted)), world_example).
Proof.
  apply (proj2 (get_provincial_brackets_data
                  (tax_rate_classes_of rates_quebec_down) "ON"
                  world_example)
           "OntarioIncomeTaxRate" federal_example federal_formatted).
  - reflexivity.
  - reflexivity.
  - apply format_brackets_federal_example.
Defined.

(** ** More on the assembled document *)

Lemma dict_get_set_same {V} (d : dict V) (k : string) (v : V) :
  dict_get (dict_set d k v) k = Some v.
Proof.
  induction d as [| [k' v'] d' IH]; cbn [dict_set dict_get].
  - now rewrite String.eqb_refl.
  - destruct (String.eqb k' k) eqn:E; cbn [dict_get]; now rewrite E.
Qed.

Lemma dict_get_set_other {V} (d : dict V) (k k' : string) (v : V) :
  k <> k' -> dict_get (dict_set d k v) k' = dict_get d k'.
Proof.
  intros Hneq. induction d as [| [k0 v0] d' IH]; cbn [dict_set dict_get].
  - apply String.eqb_neq in Hneq. now rewrite Hneq.
  - destruct (String.eqb k0 k) eqn:E; cbn [dict_get].
    + apply String.eqb_eq in E. subst k0.
      apply String.eqb_neq in Hneq. now rewrite Hneq.
    + now rewrite IH.
Qed.

Section Assembled.

Variable tax_rate_classes : dict rate_class.

Lemma assemble_provincial_cons (c : string) (codes : list string)
    (acc : dict JurisdictionBrackets) :
  assemble_provincial tax_rate_classes (c :: codes) acc
  = assemble_provincial tax_rate_classes codes
      match provincial_data tax_rate_classes c with
      | Some data => dict_set acc c data
      | None => acc
      end.
Proof. reflexivity. Qed.

(** A code the loop does not visit keeps its entry. *)
Lemma assemble_provincial_get_other (codes : list string) (code : string) :
  forall acc,
    ~ In code codes ->
    dict_get (assemble_provincial tax_rate_classes codes acc) code
    = dict_get acc code.
Proof.
  induction codes as [| c codes' IH]; intros acc Hnotin; [reflexivity |].
  rewrite assemble_provincial_cons.
  rewrite IH by (intros H; apply Hnotin; now right).
  destruct (provincial_data tax_rate_classes c); [| reflexivity].
  apply dict_get_set_other. intros ->. apply Hnotin. now left.
Qed.

(** A code the loop visits holds what its fetch returned. *)
Lemma assemble_provincial_get (codes : list string) (code : string) :
  forall acc,
    NoDup codes -> In code codes ->
    dict_get (assemble_provincial tax_rate_classes codes acc) code
    = match provincial_data tax_rate_classes code with
      | Some data => Some data
      | None => dict_get acc code
      end.
Proof.
  induction codes as [| c codes' IH]; intros acc Hnd Hin; [contradiction |].
  inversion Hnd as [| ? ? Hnotin Hnd']; subst.
  rewrite assemble_provincial_cons.
  destruct Hin as [-> | Hin].
  - rewrite assemble_provincial_get_other by exact Hnotin.
    destruct (provincial_data tax_rate_classes code); [| reflexivity].
    apply dict_get_set_same.
  - rewrite IH by assumption.
    destruct (provincial_data tax_rate_classes code); [reflexivity |].
    destruct (provincial_data tax_rate_classes c); [| reflexivity].
    apply dict_get_set_other. intros ->. contradiction.
Qed.

End Assembled.

Lemma document_of_parts (rates_2025 : rates_module) (tax_data : TaxDocument) :
  document_of rates_2025 = Some tax_data ->
  exists formatted,
    fetch_federal (tax_rate_classes_of rates_2025) = Returns formatted /\
    tax_data
    = mkDocument 2025 formatted
        (assemble_provincial (tax_rate_classes_of rates_2025)
           (dict_keys PROVINCE_NAMES) []).
Proof.
  unfold document_of, federal_data.
  generalize (assemble_provincial (tax_rate_classes_of rates_2025)
                (dict_keys PROVINCE_NAMES) []).
  intros prov.
  destruct (fetch_federal (tax_rate_classes_of rates_2025)) as [f | e];
    [| discriminate].
  intros [= <-]. eauto.
Qed.

Lemma fetch_federal_document (rates_2025 : rates_module)
    (formatted : list Bracket) :
  fetch_federal (tax_rate_classes_of rates_2025) = Returns formatted ->
  document_of rates_2025
  = Some (mkDocument 2025 formatted
            (assemble_provincial (tax_rate_classes_of rates_2025)
               (dict_keys PROVINCE_NAMES) [])).
Proof. unfold document_of, federal_data. now intros ->. Qed.

(** Lookups in the document of a run. *)
Lemma document_of_get (rates_2025 : rates_module) (tax_data : TaxDocument)
    (code : string) :
  document_of rates_2025 = Some tax_data ->
  dict_get (provincial tax_data) code
  = if in_dec string_dec code (dict_keys PROVINCE_NAMES)
    then provincial_data (tax_rate_classes_of rates_2025) code
    else None.
Proof.
  intros Hdoc. destruct (document_of_parts _ _ Hdoc) as (formatted & _ & ->).
  cbn [provincial].
  destruct (in_dec string_dec code (dict_keys PROVINCE_NAMES)) as [Hin | Hin].
  - rewrite assemble_provincial_get by (auto using PROVINCE_NAMES_NoDup).
    now destruct (provincial_data (tax_rate_classes_of rates_2025) code).
  - now rewrite assemble_provincial_get_other.
Qed.

(** What [generate_tax_data] returns is [document_of]. *)
Lemma generate_tax_data_returns (rates_2025 : rates_module) (w w' : world)
    (tax_data : TaxDocument) :
  generate_tax_data (Some rates_2025) w = (Done tax_data, w') ->
  document_of rates_2025 = Some tax_data.
Proof.
  intros Hrun.
  destruct (generate_tax_data_run rates_2025 w) as (w1 & _ & Hgen).
  rewrite Hgen in Hrun.
  destruct (document_of rates_2025) as [d |]; [| discriminate].
  now injection Hrun as -> _.
Qed.

(** X6: in the document a run returns, looking a province code up gives
    what the fetch of that very code returned, and nothing for a code whose
    fetch failed or that is not in the table; no key occurs twice; the
    federal entry is what the federal fetch returned. *)
Theorem document_lookup (rates_2025 : rates_module) (w w' : world)
    (tax_data : TaxDocument) :
  generate_tax_data (Some rates_2025) w = (Done tax_data, w') ->
  (forall code,
      dict_get (provincial tax_data) code
      = if in_dec string_dec code (dict_keys PROVINCE_NAMES)
        then provincial_data (tax_rate_classes_of rates_2025) code
        else None) /\
  NoDup (dict_keys (provincial tax_data)) /\
  fetch_federal (tax_rate_classes_of rates_2025)
  = Returns (federal tax_data).
Proof.
  intros Hrun. apply generate_tax_data_returns in Hrun.
  split; [| split].
  - intros code. now apply document_of_get.
  - rewrite (document_of_provincial _ _ Hrun).
    apply NoDup_filter, PROVINCE_NAMES_NoDup.
  - destruct (document_of_parts _ _ Hrun) as (formatted & Hfed & ->).
    exact Hfed.
Qed.

Lemma document_lookup_witness :
  exists tax_data w',
    generate_tax_data (Some rates_quebec_down) world_example
    = (Done tax_data, w') /\
    (forall code,
        dict_get (provincial tax_data) code
        = if in_dec string_dec code (dict_keys PROVINCE_NAMES)
          then provincial_data (tax_rate_classes_of rates_quebec_down) code
          else None) /\
    NoDup (dict_keys (provincial tax_data)) /\
    fetch_federal (tax_rate_classes_of rates_quebec_down)
    = Returns (federal tax_data).
Proof.
  do 2 eexists. split; [vm_compute; reflexivity |].
  eapply (document_lookup rates_quebec_down world_example).
  vm_compute. reflexivity.
Defined.

Section MoreRuns.

Variable float_repr : float -> string.

(** X7: with the package imported a run ends in one of three ways. It
    leaves with status 1 when the federal fetch raises. When the federal
    fetch returns, it ends normally if every int of the assembled document
    can be printed, and with the uncaught [ValueError] of [json.dump]
    (status 1) otherwise. A province that fails never ends the run. *)
Theorem how_a_run_ends (rates_2025 : rates_module) (w : world) :
  fst (main float_repr (Some rates_2025) w)
  = match fetch_federal (tax_rate_classes_of rates_2025) with
    | Returns formatted =>
      if document_printable
           (mkDocument 2025 formatted
              (assemble_provincial (tax_rate_classes_of rates_2025)
                 (dict_keys PROVINCE_NAMES) []))
      then Done tt
      else Uncaught max_str_digits_error
    | Raises _ => SystemExit 1
    end.
Proof.
  pose proof (main_run float_repr rates_2025 w) as Hrun.
  unfold document_of, federal_data in Hrun. revert Hrun.
  generalize (assemble_provincial (tax_rate_classes_of rates_2025)
                (dict_keys PROVINCE_NAMES) []).
  intros prov Hrun.
  destruct (fetch_federal (tax_rate_classes_of rates_2025)) as [fed | e].
  - pose proof (json_dump_chunks_cases float_repr (mkDocument 2025 fed prov))
      as Hdump.
    destruct (document_printable (mkDocument 2025 fed prov)).
    + rewrite Hdump in Hrun. now destruct Hrun as (w' & -> & _).
    + destruct Hdump as [text Hdump]. rewrite Hdump in Hrun.
      now destruct Hrun as (w' & -> & _).
  - now destruct Hrun as (w' & -> & _).
Qed.



End MoreRuns.


(** X9: a schedule without brackets is data, not a failure. When the
    federal class returns an object with an empty [brackets] list the run
    goes on and the document's federal list is empty; and a province whose
    class returns such an object is in the provincial map, with its name
    and an empty list. *)
Theorem empty_schedules_kept (rates_2025 : rates_module) (w : world)
    (fed : tax_rate_obj) :
  FederalIncomeTaxRate rates_2025 = Returns fed ->
  brackets fed = [] ->
  exists tax_data w',
    generate_tax_data (Some rates_2025) w = (Done tax_data, w') /\
    federal tax_data = [] /\
    forall code obj,
      In code (dict_keys PROVINCE_NAMES) ->
      class_of rates_2025 code = Some (Returns obj) ->
      brackets obj = [] ->
      exists name,
        dict_get PROVINCE_NAMES code = Some name /\
        dict_get (provincial tax_data) code = Some (mkJurisdiction name []).
Proof.
  intros Hfed Hempty.
  assert (Hfetch : fetch_federal (tax_rate_classes_of rates_2025)
                   = Returns []).
  { rewrite fetch_federal_class, Hfed. cbn [bind].
    now apply format_brackets_empty. }
  destruct (generate_tax_data_run rates_2025 w) as (w' & _ & Hgen).
  pose proof (fetch_federal_document _ _ Hfetch) as Hdoc.
  rewrite Hdoc in Hgen. eexists. exists w'. split; [exact Hgen |].
  split; [reflexivity |].
  intros code obj Hin Hcls Hobj.
  destruct (provincial_data_fetches _ _ _ [] Hcls
              (format_brackets_empty obj Hobj)) as (name & Hname & Hdata).
  exists name. split; [exact Hname |].
  rewrite (document_of_get _ _ code Hdoc).
  destruct (in_dec string_dec code (dict_keys PROVINCE_NAMES));
    [exact Hdata | contradiction].
Qed.

Lemma empty_schedules_kept_witness :
  FederalIncomeTaxRate rates_empty = Returns (mkRateObj []) /\
  exists tax_data w',
    generate_tax_data (Some rates_empty) world_example
    = (Done tax_data, w') /\
    federal tax_data = [] /\
    forall code obj,
      In code (dict_keys PROVINCE_NAMES) ->
      class_of rates_empty code = Some (Returns obj) ->
      brackets obj = [] ->
      exists name,
        dict_get PROVINCE_NAMES code = Some name /\
        dict_get (provincial tax_data) code = Some (mkJurisdiction name []).
Proof.
  split; [reflexivity |].
  apply (empty_schedules_kept rates_empty world_example (mkRateObj []));
    reflexivity.
Defined.

(** ** What a run prints *)

Section Logs.

Variable tax_rate_classes : dict rate_class.

Lemma get_federal_brackets_log (w : world) :
  get_federal_brackets tax_rate_classes w
  = (Done (federal_data tax_rate_classes),
     log w (federal_log tax_rate_classes)).
Proof.
  unfold get_federal_brackets, federal_data, federal_log.
  destruct (fetch_federal tax_rate_classes) as [formatted | e].
  - now rewrite log_nil.
  - now rewrite bind_print.
Qed.

Lemma get_provincial_brackets_log (province_code : string) (w : world) :
  get_provincial_brackets tax_rate_classes province_code w
  = (Done (provincial_data tax_rate_classes province_code),
     log w (fetch_log tax_rate_classes province_code)).
Proof.
  unfold get_provincial_brackets, provincial_data, fetch_log.
  destruct (dict_get PROVINCE_TO_CLASS province_code) as [cn |].
  - destruct (falsy (Some cn) || negb (dict_contains tax_rate_classes cn)).
    + now rewrite bind_print.
    + destruct (fetch_provincial tax_rate_classes province_code cn).
      * now rewrite log_nil.
      * now rewrite bind_print.
  - now rewrite bind_print.
Qed.

Lemma provincial_loop_log (codes : list string) :
  forall acc w,
    provincial_loop tax_rate_classes codes acc w
    = (Done (assemble_provincial tax_rate_classes codes acc),
       log w (flat_map (province_log tax_rate_classes) codes)).
Proof.
  induction codes as [| code codes' IH]; intros acc w.
  - cbn [flat_map]. now rewrite log_nil.
  - cbn [provincial_loop flat_map]. rewrite assemble_provincial_cons.
    rewrite bind_print.
    rewrite (bind_done _ _ _ _ _ (get_provincial_brackets_log code _)).
    unfold province_log, fetched.
    destruct (provincial_data tax_rate_classes code) as [data |].
    + rewrite IH, !log_log, app_nil_r, <- app_assoc. reflexivity.
    + rewrite bind_print, IH, !log_log, <- !app_assoc. reflexivity.
Qed.

End Logs.

Lemma generate_tax_data_log (rates_2025 : rates_module) (w : world) :
  generate_tax_data (Some rates_2025) w
  = (match document_of rates_2025 with
     | Some tax_data => Done tax_data
     | None => SystemExit 1
     end, log w (generate_log rates_2025)).
Proof.
  unfold generate_tax_data, document_of, generate_log.
  rewrite !bind_print.
  rewrite (bind_done _ _ _ _ _ (get_federal_brackets_log _ _)).
  destruct (federal_data (tax_rate_classes_of rates_2025)) as [fed |].
  - rewrite (bind_done _ _ _ _ _ (provincial_loop_log _ _ _ _)).
    cbv beta. unfold ret. rewrite !log_log, <- ?app_assoc. reflexivity.
  - rewrite bind_print. unfold sys_exit. rewrite !log_log, <- ?app_assoc.
    reflexivity.
Qed.




Section Printed.

Variable float_repr : float -> string.

(** The exact text of a run of [main] with the package imported. *)
Lemma main_log (rates_2025 : rates_module) (w : world) :
  main float_repr (Some rates_2025) w
  = match document_of rates_2025 with
    | Some tax_data =>
      match json_dump_chunks float_repr tax_data with
      | Complete text =>
        (Done tt,
         written w output_file text
           (banner ++ generate_log rates_2025 ++ summary tax_data))
      | Broken text msg =>
        (Uncaught msg,
         written w output_file text
           (banner ++ generate_log rates_2025 ++ announcement))
      end
    | None => (SystemExit 1, log w (banner ++ generate_log rates_2025))
    end.
Proof.
  unfold main. rewrite !bind_print, !log_log.
  pose proof (generate_tax_data_log rates_2025) as Hgen.
  destruct (document_of rates_2025) as [tax_data |] eqn:Hdoc.
  - rewrite (bind_done _ _ _ _ _ (Hgen _)).
    rewrite (document_of_year _ _ Hdoc), output_file_name.
    rewrite !bind_print, !log_log.
    destruct (json_dump_chunks float_repr tax_data) as [text | text msg].
    + rewrite bind_write_file.
      rewrite !bind_print_written, print_written.
      unfold banner, summary. rewrite <- ?app_assoc. reflexivity.
    + rewrite bind_write_raise.
      unfold banner, announcement. rewrite <- ?app_assoc. reflexivity.
  - rewrite (bind_exit _ _ _ _ _ (Hgen _)), log_log.
    unfold banner. rewrite <- ?app_assoc. reflexivity.
Qed.

(** The text of a run of [main] that ends normally. *)
Lemma main_log_done (rates_2025 : rates_module) (w w' : world) :
  main float_repr (Some rates_2025) w = (Done tt, w') ->
  exists tax_data,
    document_of rates_2025 = Some tax_data /\
    w' = written w output_file (json_dump float_repr tax_data)
           (banner ++ generate_log rates_2025 ++ summary tax_data).
Proof.
  rewrite main_log.
  destruct (document_of rates_2025) as [tax_data |] eqn:Hdoc;
    [| discriminate].
  destruct (json_dump_chunks float_repr tax_data) as [text | text msg]
    eqn:Hdump; [| discriminate].
  destruct (json_dump_chunks_complete _ _ _ Hdump) as [_ ->].
  intros H. apply (f_equal snd) in H. cbn [snd] in H.
  exists tax_data. now split.
Qed.

(** X5: an int of more than 4300 digits in the assembled document breaks
    the file mode. The run ends with the uncaught [ValueError] of
    [json.dump], status 1, after [output_file] was opened for writing:
    whatever the file held is gone, it now holds the start of the JSON text
    and not all of it, and the last thing printed is "Writing to ...". *)
Theorem unprintable_document_breaks_run (rates_2025 : rates_module)
    (w0 w0' w : world) (tax_data : TaxDocument) :
  generate_tax_data (Some rates_2025) w0 = (Done tax_data, w0') ->
  document_printable tax_data = false ->
  exists text rest,
    main float_repr (Some rates_2025) w
    = (Uncaught max_str_digits_error,
       written w output_file text
         (banner ++ generate_log rates_2025 ++ announcement)) /\
    exit_status (@Uncaught unit max_str_digits_error) = 1 /\
    json_dump float_repr tax_data = text ++ rest /\
    rest <> EmptyString.
Proof.
  intros Hgen Hprint. apply generate_tax_data_returns in Hgen.
  rewrite main_log, Hgen.
  pose proof (json_dump_chunks_cases float_repr tax_data) as Hdump.
  rewrite Hprint in Hdump. destruct Hdump as [text Hdump].
  destruct (json_dump_chunks_stops_short float_repr _ _ _ Hdump)
    as (rest & Hrest & Hne).
  rewrite Hdump. exists text, rest.
  split; [reflexivity |]. split; [reflexivity |]. now split.
Qed.


End Printed.

Lemma unprintable_document_breaks_run_witness :
  exists tax_data text rest,
    document_printable tax_data = false /\
    main repr_example (Some rates_alberta_unprintable) world_stale
    = (Uncaught max_str_digits_error,
       written world_stale output_file text
         (banner ++ generate_log rates_alberta_unprintable
          ++ announcement)) /\
    exit_status (@Uncaught unit max_str_digits_error) = 1 /\
    json_dump repr_example tax_data = text ++ rest /\
    rest <> EmptyString.
Proof.
  assert (Hdoc : exists tax_data,
             document_of rates_alberta_unprintable = Some tax_data /\
             document_printable tax_data = false)
    by (eexists; split; [vm_compute; reflexivity |]; vm_compute;
        reflexivity).
  destruct Hdoc as (tax_data & Hdoc & Hprint).
  pose proof (generate_tax_data_log rates_alberta_unprintable world_example)
    as Hgen.
  rewrite Hdoc in Hgen.
  destruct (unprintable_document_breaks_run repr_example
              rates_alberta_unprintable world_example _ world_stale
              tax_data Hgen Hprint) as (text & rest & H).
  exists tax_data, text, rest. split; [exact Hprint | exact H].
Defined.


Section Summary.

Variable float_repr : float -> string.

(** X11: a run that ends normally closes its output with the counts of
    the document it wrote: the number of federal brackets and the number of
    provinces, which with the provinces that failed makes thirteen. *)
Theorem summary_reports_counts (rates_2025 : rates_module) (w w' : world) :
  main float_repr (Some rates_2025) w = (Done tt, w') ->
  exists tax_data earlier,
    files w' output_file = Some (json_dump float_repr tax_data) /\
    stdout w'
    = List.app earlier
        [ "    - Federal brackets: " ++ str_int (len (federal tax_data));
          "    - Provincial brackets: "
          ++ str_int (len (provincial tax_data));
          "";
          "The calculator will automatically load this file when opened.";
          "" ] /\
    len (provincial tax_data)
    + Z.of_nat
        (List.length
           (filter
              (fun c => negb (fetched (tax_rate_classes_of rates_2025) c))
              (dict_keys PROVINCE_NAMES)))
    = 13.
Proof.
  intros H.
  destruct (main_log_done float_repr _ _ _ H) as (tax_data & Hdoc & ->).
  exists tax_data,
    (stdout w ++ banner ++ generate_log rates_2025
     ++ [ "";
          "Writing to tax_brackets_2025.json...";
          "Successfully generated tax_brackets_2025.json";
          "";
          "Tax data summary:";
          "    - Year: 2025" ])%list.
  unfold written. cbn [files stdout]. split; [| split].
  - now rewrite String.eqb_refl.
  - unfold summary. rewrite <- !app_assoc. reflexivity.
  - unfold len.
    rewrite <- (length_map fst (provincial tax_data)).
    change (map fst (provincial tax_data))
      with (dict_keys (provincial tax_data)).
    rewrite (document_of_provincial _ _ Hdoc), <- Nat2Z.inj_add.
    rewrite filter_length. reflexivity.
Qed.

End Summary.

Lemma summary_reports_counts_witness :
  exists w' tax_data earlier,
    main repr_example (Some rates_quebec_down) world_example = (Done tt, w') /\
    files w' output_file = Some (json_dump repr_example tax_data) /\
    stdout w'
    = List.app earlier
        [ "    - Federal brackets: " ++ str_int (len (federal tax_data));
          "    - Provincial brackets: "
          ++ str_int (len (provincial tax_data));
          "";
          "The calculator will automatically load this file when opened.";
          "" ] /\
    len (provincial tax_data)
    + Z.of_nat
        (List.length
           (filter
              (fun c =>
                 negb (fetched (tax_rate_classes_of rates_quebec_down) c))
              (dict_keys PROVINCE_NAMES)))
    = 13.
Proof.
  exists (snd (main repr_example (Some rates_quebec_down) world_example)).
  assert (H : main repr_example (Some rates_quebec_down) world_example
              = (Done tt,
                 snd (main repr_example (Some rates_quebec_down)
                        world_example)))
    by (vm_compute; reflexivity).
  destruct (summary_reports_counts repr_example rates_quebec_down
              world_example _ H) as (tax_data & earlier & H1 & H2 & H3).
  exists tax_data, earlier.
  split; [exact H | split; [exact H1 | split; [exact H2 | exact H3]]].
Defined.

(** ** The JavaScript mode *)

Section JsMode.

Variable float_repr : float -> string.

Lemma bind_lift_returns {A B} (a : A) (k : A -> IO B) (w : world) :
  io_bind (lift (Returns a)) k w = k a w.
Proof. reflexivity. Qed.

Lemma bind_uncaught {A B} (c : IO A) (k : A -> IO B) (w w' : world)
    (msg : string) :
  c w = (Uncaught msg, w') -> io_bind c k w = (Uncaught msg, w').
Proof. unfold io_bind. now intros ->. Qed.

(** The f-string of a bracket raises exactly on an int that is too
    long. *)
Lemma js_bracket_cases (indent : string) (b : Bracket) :
  if bracket_printable b
  then exists line, js_bracket float_repr indent b = Returns line
  else js_bracket float_repr indent b = Raises max_str_digits_error.
Proof.
  unfold js_bracket, bracket_printable.
  assert (Hnum : forall x,
             if printable x
             then exists text, str_num float_repr x = Returns text
             else str_num float_repr x = Raises max_str_digits_error).
  { intros [n | f]; cbn [str_num]; [| cbn [printable]; eauto].
    destruct (repr_int_cases n) as [[-> ->] | [-> ->]]; eauto. }
  pose proof (Hnum (b_min b)) as Hmin.
  destruct (printable (b_min b)); cbn [andb].
  - destruct Hmin as [text ->]. cbn [bind].
    destruct (b_max b) as [x | s]; cbn [js_max].
    + pose proof (Hnum x) as Hmax.
      destruct (printable x); [destruct Hmax as [t ->] | rewrite Hmax];
        cbn [bind]; eauto.
    + cbn [bind]. eauto.
  - now rewrite Hmin.
Qed.

Lemma print_brackets_run (indent : string) (bs : list Bracket) :
  forall w,
  exists lines,
    print_brackets float_repr indent bs w
    = (if forallb bracket_printable bs then Done tt
       else Uncaught max_str_digits_error, log w lines).
Proof.
  induction bs as [| b bs' IH]; intros w.
  - exists []. now rewrite log_nil.
  - cbn [print_brackets forallb].
    pose proof (js_bracket_cases indent b) as Hb.
    destruct (bracket_printable b); cbn [andb].
    + destruct Hb as [line ->]. rewrite bind_lift_returns, bind_print.
      destruct (IH (log w [line])) as [l Hl].
      rewrite Hl, log_log. eauto.
    + rewrite Hb. exists []. now rewrite log_nil.
Qed.

Lemma print_provinces_run (items : dict JurisdictionBrackets) :
  forall w,
  exists lines,
    print_provinces float_repr items w
    = (if forallb (fun kv => forallb bracket_printable (j_brackets (snd kv)))
            items
       then Done tt
       else Uncaught max_str_digits_error, log w lines).
Proof.
  induction items as [| [code data] items' IH]; intros w.
  - exists []. now rewrite log_nil.
  - cbn [print_provinces forallb snd]. rewrite !bind_print, !log_log.
    match goal with
    | |- context [io_bind (print_brackets _ ?i ?b) _ ?w0] =>
      destruct (print_brackets_run i b w0) as [l1 H1]
    end.
    destruct (forallb bracket_printable (j_brackets data)); cbn [andb].
    + rewrite (bind_done _ _ _ _ _ H1), !bind_print, !log_log.
      match goal with
      | |- context [print_provinces _ _ ?w0] =>
        destruct (IH w0) as [l2 H2]
      end.
      rewrite H2, log_log. eauto.
    + rewrite (bind_uncaught _ _ _ _ _ H1), log_log. eauto.
Qed.

(** What a run of [print_js_format] returns and changes. *)
Lemma print_js_format_run (pkg : package) (w : world) :
  exists lines,
    print_js_format float_repr pkg w
    = (match import_rates pkg with
       | Some rates_2025 =>
         match document_of rates_2025 with
         | Some tax_data =>
           if document_printable tax_data then Done tt
           else Uncaught max_str_digits_error
         | None => SystemExit 1
         end
       | None => SystemExit 1
       end, log w lines).
Proof.
  unfold print_js_format. destruct pkg as [| [rates |]]; cbn [import_rates].
  - rewrite (bind_exit _ _ _
               (log w ["Error: canatax package not installed."]) 1)
      by reflexivity.
    eauto.
  - rewrite bind_ret.
    pose proof (generate_tax_data_log rates w) as Hgen.
    destruct (document_of rates) as [tax_data |] eqn:Hdoc.
    + rewrite (bind_done _ _ _ _ _ Hgen), !bind_print, !log_log.
      unfold document_printable.
      rewrite (document_of_year _ _ Hdoc), printable_year. cbn [andb].
      match goal with
      | |- context [io_bind (print_brackets _ ?i ?b) _ ?w0] =>
        destruct (print_brackets_run i b w0) as [l1 H1]
      end.
      destruct (forallb bracket_printable (federal tax_data)); cbn [andb].
      * rewrite (bind_done _ _ _ _ _ H1), !bind_print, !log_log.
        match goal with
        | |- context [io_bind (print_provinces _ ?i) _ ?w0] =>
          destruct (print_provinces_run i w0) as [l2 H2]
        end.
        destruct (forallb _ (provincial tax_data)).
        -- rewrite (bind_done _ _ _ _ _ H2), !bind_print, !log_log.
           unfold print, log. cbn [stdout files clock].
           rewrite <- app_assoc. eauto.
        -- rewrite (bind_uncaught _ _ _ _ _ H2), log_log. eauto.
      * rewrite (bind_uncaught _ _ _ _ _ H1), log_log. eauto.
    + rewrite (bind_exit _ _ _ _ _ Hgen). eauto.
  - rewrite bind_ret.
    destruct (generate_tax_data_no_package w) as (w' & [l Hl] & Hgen).
    rewrite (bind_exit _ _ _ _ _ Hgen). subst w'. eauto.
Qed.

Lemma main_outcome (canatax : option rates_module) (w : world) :
  exists lines w',
    main float_repr canatax w
    = (match canatax with
       | Some rates_2025 =>
         match document_of rates_2025 with
         | Some tax_data =>
           if document_printable tax_data then Done tt
           else Uncaught max_str_digits_error
         | None => SystemExit 1
         end
       | None => SystemExit 1
       end, w') /\
    stdout w' = (stdout w ++ lines)%list /\ clock w' = clock w.
Proof.
  destruct canatax as [rates |].
  - rewrite main_log.
    destruct (document_of rates) as [tax_data |].
    + pose proof (json_dump_chunks_cases float_repr tax_data) as Hdump.
      destruct (document_printable tax_data).
      * rewrite Hdump. do 2 eexists.
        split; [reflexivity | split; reflexivity].
      * destruct Hdump as [text ->]. do 2 eexists.
        split; [reflexivity | split; reflexivity].
    + do 2 eexists. split; [reflexivity | split; reflexivity].
  - destruct (main_no_package float_repr w) as (w' & Hmain & [l Hl]).
    rewrite Hmain. subst w'. do 2 eexists.
    split; [reflexivity | split; reflexivity].
Qed.

(** X12: with [--js] as first argument the script writes no file: it only
    prints, and it ends as the file mode ends on the same provider, with
    status 0 or 1. Any other first argument, or none, runs the file
    mode. *)
Theorem js_mode_writes_nothing (argv : list string) (pkg : package)
    (w : world) :
  (nth_error argv 1 = Some "--js" ->
   files (snd (script float_repr argv pkg w)) = files w /\
   clock (snd (script float_repr argv pkg w)) = clock w /\
   fst (script float_repr argv pkg w)
   = fst (main float_repr (import_rates pkg) w) /\
   (exit_status (fst (script float_repr argv pkg w)) = 0 \/
    exit_status (fst (script float_repr argv pkg w)) = 1)) /\
  (nth_error argv 1 <> Some "--js" ->
   script float_repr argv pkg w = main float_repr (import_rates pkg) w).
Proof.
  split.
  - intros Hjs. destruct argv as [| prog [| arg rest]]; try discriminate.
    cbn [nth_error] in Hjs. injection Hjs as ->.
    unfold script. cbn [String.eqb Ascii.eqb Bool.eqb].
    destruct (print_js_format_run pkg w) as [lines Hrun].
    destruct (main_outcome (import_rates pkg) w) as (l & w' & Hmain & _).
    rewrite Hrun, Hmain. cbn [fst snd log files clock].
    repeat split.
    destruct (import_rates pkg) as [rates |]; [| now right].
    destruct (document_of rates) as [tax_data |]; [| now right].
    destruct (document_printable tax_data); [now left | now right].
  - intros Hfile. unfold script.
    destruct argv as [| prog [| arg rest]]; try reflexivity.
    destruct (String.eqb arg "--js") eqn:E; [| reflexivity].
    apply String.eqb_eq in E. subst arg. now contradiction Hfile.
Qed.

End JsMode.

Lemma js_mode_writes_nothing_witness :
  nth_error ["generate_tax_brackets.py"; "--js"] 1 = Some "--js" /\
  files (snd (script repr_example ["generate_tax_brackets.py"; "--js"]
                (Installed (Some rates_example)) world_stale))
  = files world_stale /\
  fst (script repr_example ["generate_tax_brackets.py"; "--js"]
         (Installed (Some rates_example)) world_stale)
  = fst (main repr_example (Some rates_example) world_stale).
Proof.
  split; [reflexivity |].
  destruct (proj1 (js_mode_writes_nothing repr_example
                     ["generate_tax_brackets.py"; "--js"]
                     (Installed (Some rates_example)) world_stale) eq_refl)
    as (Hfiles & _ & Hfst & _).
  split; [exact Hfiles | exact Hfst].
Defined.
